(** * Lesson tutor backend: the request handler and the prompt pipeline

    A shallow embedding of [app.py] (the Flask handler of
    [POST /api/generate]) and of [itinerary_generator2.py] (prompt
    construction and the single chat-completion call), followed by the
    properties of the specification that concern them.

    Python values are modelled as they reach the handler: the parsed JSON
    body is a tree of [json] values, a [str] is a list of Unicode code
    points, an [int] is a [Z], and a [float] is either NaN, an infinity or
    a finite dyadic number.  Exceptions, early [return]s and the calls
    made to the prompt pipeline are threaded through a small monad.
    Standard output is taken to be the default one: it encodes in UTF-8
    and refuses what UTF-8 cannot encode. *)

From Stdlib Require Import ZArith NArith List Bool String Ascii Lia.
From Stdlib Require Import DecimalString.
Import ListNotations.

Local Open Scope Z_scope.

Set Warnings "-register-all".

(** ** Python values *)

Module Py.

(** A Python [str]: its sequence of code points. *)
Definition pystr : Type := list N.

Fixpoint bytes_of (s : string) : list N :=
  match s with
  | EmptyString => []
  | String a r => N_of_ascii a :: bytes_of r
  end.

(** Source literals are written in UTF-8; [utf8_decode] gives their code
    points. *)
Fixpoint utf8_decode (bs : list N) : pystr :=
  match bs with
  | [] => []
  | b0 :: r0 =>
      if (b0 <? 128)%N then b0 :: utf8_decode r0
      else match r0 with
      | [] => []
      | b1 :: r1 =>
          if (b0 <? 224)%N
          then ((b0 - 192) * 64 + (b1 - 128))%N :: utf8_decode r1
          else match r1 with
          | [] => []
          | b2 :: r2 =>
              if (b0 <? 240)%N
              then ((b0 - 224) * 4096 + (b1 - 128) * 64 + (b2 - 128))%N
                     :: utf8_decode r2
              else match r2 with
              | [] => []
              | b3 :: r3 =>
                  ((b0 - 240) * 262144 + (b1 - 128) * 4096
                   + (b2 - 128) * 64 + (b3 - 128))%N :: utf8_decode r3
              end
          end
      end
  end.

Definition u8 (s : string) : pystr := utf8_decode (bytes_of s).

Fixpoint pystr_eqb (a b : pystr) : bool :=
  match a, b with
  | [], [] => true
  | x :: a', y :: b' => (x =? y)%N && pystr_eqb a' b'
  | _, _ => false
  end.

(** [str.isspace] for one code point: the whitespace set that
    [str.strip()] (called without argument) removes. *)
Definition is_space (c : N) : bool :=
  ((9 <=? c) && (c <=? 13) || (28 <=? c) && (c <=? 32)
   || (c =? 133) || (c =? 160) || (c =? 5760)
   || (8192 <=? c) && (c <=? 8202)
   || (c =? 8232) || (c =? 8233) || (c =? 8239) || (c =? 8287)
   || (c =? 12288))%N.

Fixpoint lstrip (s : pystr) : pystr :=
  match s with
  | [] => []
  | c :: r => if is_space c then lstrip r else s
  end.

Definition rstrip (s : pystr) : pystr := rev (lstrip (rev s)).

(** [s.strip()] *)
Definition strip (s : pystr) : pystr := rstrip (lstrip s).

(** [str(n)] for an [int]: the decimal numeral, with a leading minus sign
    for negative numbers. *)
Definition str_of_int (n : Z) : pystr :=
  bytes_of (NilEmpty.string_of_int (Z.to_int n)).

(** A Python [float] as [json.loads] can produce it: NaN, an infinity (the
    literals [NaN], [Infinity], [-Infinity], or a number too large for a
    double such as [1e999]), or the finite value [m * 2^e]. *)
Inductive pyfloat : Type :=
| FNan
| FInf (negative : bool)
| FFinite (m e : Z).

(** Truncation toward zero of the finite value [m * 2^e]. *)
Definition float_trunc (m e : Z) : Z :=
  if 0 <=? e then m * 2 ^ e else Z.quot m (2 ^ (- e)).

(** The result of [request.get_json()]: Python's image of a JSON text.
    A [dict] keeps its items in insertion order. *)
Inductive json : Type :=
| JNull
| JBool (b : bool)
| JInt (n : Z)
| JFloat (x : pyfloat)
| JStr (s : pystr)
| JList (l : list json)
| JDict (items : list (pystr * json)).

(** [bool(v)], the truth value tested by [if not v] and [v or w]. *)
Definition truthy (v : json) : bool :=
  match v with
  | JNull => false
  | JBool b => b
  | JInt n => negb (n =? 0)
  | JFloat (FFinite m _) => negb (m =? 0)
  | JFloat _ => true
  | JStr s => match s with [] => false | _ => true end
  | JList l => match l with [] => false | _ => true end
  | JDict d => match d with [] => false | _ => true end
  end.

(** [type(v).__name__] *)
Definition type_name (v : json) : pystr :=
  match v with
  | JNull => u8 "NoneType"
  | JBool _ => u8 "bool"
  | JInt _ => u8 "int"
  | JFloat _ => u8 "float"
  | JStr _ => u8 "str"
  | JList _ => u8 "list"
  | JDict _ => u8 "dict"
  end.

(** Exceptions: the class decides which [except] clause applies, the text
    is what [str(e)] gives.  [UnicodeEncodeError] is a subclass of
    [ValueError]; [OtherError] stands for every class that is none of the
    named ones (HTTP errors raised by the framework, connection and
    provider errors, [KeyError], ...). *)
Inductive exc_class : Type :=
| AttributeError | TypeError | ValueError | OverflowError
| UnicodeEncodeError | OtherError.

Record exc : Type := mkExc { exc_cls : exc_class; exc_str : pystr }.

(** The value of a Python expression: a result or a raised exception. *)
Inductive res (A : Type) : Type :=
| Ok (a : A)
| Err (e : exc).
Arguments Ok {A} a.
Arguments Err {A} e.

(** *** Encoding to UTF-8

    A [str] encodes to UTF-8 unless it holds a surrogate code point
    (U+D800 to U+DFFF).  The strict encoder then raises, naming the first
    run of surrogates: its position and, when the run is a single code
    point, that code point. *)

Definition is_surrogate (c : N) : bool := ((55296 <=? c) && (c <=? 57343))%N.

Definition no_surrogate (s : pystr) : bool :=
  forallb (fun c => negb (is_surrogate c)) s.

Fixpoint surrogate_run (s : pystr) : nat :=
  match s with
  | [] => 0
  | c :: r => if is_surrogate c then S (surrogate_run r) else 0
  end.

Definition hex_digit (d : N) : N := (if d <? 10 then 48 + d else 87 + d)%N.

(** The format [%04x] of a code point below 65536. *)
Definition hex4 (c : N) : pystr :=
  [ hex_digit ((c / 4096) mod 16); hex_digit ((c / 256) mod 16);
    hex_digit ((c / 16) mod 16); hex_digit (c mod 16) ]%N.

(** [str(e)] for the [UnicodeEncodeError] of the UTF-8 codec. *)
Definition surrogates_not_allowed (start : nat) (c : N) (run : nat) : exc :=
  mkExc UnicodeEncodeError
    (match run with
     | 1%nat =>
         u8 "'utf-8' codec can't encode character '\u" ++ hex4 c
            ++ u8 "' in position " ++ str_of_int (Z.of_nat start)
     | _ =>
         u8 "'utf-8' codec can't encode characters in position "
            ++ str_of_int (Z.of_nat start) ++ u8 "-"
            ++ str_of_int (Z.of_nat (start + run - 1))
     end ++ u8 ": surrogates not allowed").

Fixpoint encode_error_from (pos : nat) (s : pystr) : option exc :=
  match s with
  | [] => None
  | c :: r =>
      if is_surrogate c
      then Some (surrogates_not_allowed pos c (S (surrogate_run r)))
      else encode_error_from (S pos) r
  end.

(** What [s.encode('utf-8')] raises, if anything. *)
Definition utf8_encode_error (s : pystr) : option exc := encode_error_from 0 s.

Definition no_attribute (v : json) (attr : string) : exc :=
  mkExc AttributeError
    (u8 "'" ++ type_name v ++ u8 "' object has no attribute '"
        ++ u8 attr ++ u8 "'").

Fixpoint assoc_get (k : pystr) (d : list (pystr * json)) : option json :=
  match d with
  | [] => None
  | (k', v) :: r => if pystr_eqb k k' then Some v else assoc_get k r
  end.

(** [d] with the value of [key] set to [v], as [dict(d, key=v)] builds
    it: the item is replaced in place, or appended when the key is new. *)
Fixpoint assoc_set (key : pystr) (v : json) (d : list (pystr * json))
  : list (pystr * json) :=
  match d with
  | [] => [(key, v)]
  | (k, x) :: r =>
      if pystr_eqb key k then (k, v) :: r else (k, x) :: assoc_set key v r
  end.

(** [v.get(key, default)]: defined on a [dict] only. *)
Definition method_get (v : json) (key : pystr) (default : json) : res json :=
  match v with
  | JDict d => Ok (match assoc_get key d with Some x => x | None => default end)
  | _ => Err (no_attribute v "get")
  end.

(** [v.strip()]: defined on a [str] only. *)
Definition method_strip (v : json) : res pystr :=
  match v with
  | JStr s => Ok (strip s)
  | _ => Err (no_attribute v "strip")
  end.

(** [sep.join(items)]: the items must all be [str]; the first one that is
    not raises [TypeError] naming its position. *)
Fixpoint join_from (i : nat) (sep : pystr) (items : list json) : res pystr :=
  match items with
  | [] => Ok []
  | x :: r =>
      match x with
      | JStr s =>
          match r with
          | [] => Ok s
          | _ :: _ =>
              match join_from (S i) sep r with
              | Ok t => Ok (s ++ sep ++ t)
              | Err e => Err e
              end
          end
      | _ =>
          Err (mkExc TypeError
                 (u8 "sequence item " ++ str_of_int (Z.of_nat i)
                    ++ u8 ": expected str instance, " ++ type_name x
                    ++ u8 " found"))
      end
  end.

Definition join (sep : pystr) (items : list json) : res pystr :=
  join_from 0 sep items.

End Py.

Import Py.

(** ** What the program does not define itself

    [int_of_str] is Python's [int(s)] on a [str] ([None] stands for the
    [ValueError] it raises); [ollama_chat model prompt] is the outcome of
    the whole guarded block of [generate_lesson]: building the client,
    the non-streaming chat request with the prompt as a single user
    message, and reading [response['message']['content']]. *)
Class Environment : Type := {
  int_of_str : pystr -> option Z;
  ollama_chat : json -> pystr -> res json
}.

(** [int(v)] *)
Definition py_int {env : Environment} (v : json) : res Z :=
  match v with
  | JBool b => Ok (if b then 1 else 0)
  | JInt n => Ok n
  | JFloat FNan =>
      Err (mkExc ValueError (u8 "cannot convert float NaN to integer"))
  | JFloat (FInf _) =>
      Err (mkExc OverflowError (u8 "cannot convert float infinity to integer"))
  | JFloat (FFinite m e) => Ok (float_trunc m e)
  | JStr s =>
      match int_of_str s with
      | Some n => Ok n
      | None => Err (mkExc ValueError (u8 "invalid literal for int() with base 10"))
      end
  | JNull | JList _ | JDict _ =>
      Err (mkExc TypeError
             (u8 "int() argument must be a string, a bytes-like object or a real number, not '"
                ++ type_name v ++ u8 "'"))
  end.

(** ** Control flow

    A function body either goes on to its next statement, executes a
    [return], or raises.  Alongside, the calls into the prompt pipeline
    are recorded in order.  Of a write to standard output only the
    exception it may raise is kept. *)

Inductive event : Type :=
| CallGenerateLesson (subject level learning_style : pystr)
    (topics : list json) (duration : option Z) (model_name : json)
| CallChat (model : json) (prompt : pystr).

Definition trace : Type := list event.

Inductive outcome (R A : Type) : Type :=
| Next (a : A)
| Return (r : R)
| Raise (e : exc).
Arguments Next {R A} a.
Arguments Return {R A} r.
Arguments Raise {R A} e.

Definition M (R A : Type) : Type := trace -> outcome R A * trace.

Definition ret {R A} (a : A) : M R A := fun t => (Next a, t).

Definition bind {R A B} (m : M R A) (k : A -> M R B) : M R B :=
  fun t =>
    match m t with
    | (Next a, t') => k a t'
    | (Return r, t') => (Return r, t')
    | (Raise e, t') => (Raise e, t')
    end.

Declare Scope py_scope.
Delimit Scope py_scope with py.
Notation "x <- m ;; k" := (bind m (fun x => k))
  (at level 100, m at next level, right associativity) : py_scope.
Notation "m ;; k" := (bind m (fun _ => k))
  (at level 100, right associativity) : py_scope.
Local Open Scope py_scope.

(** [return r] *)
Definition py_return {R A} (r : R) : M R A := fun t => (Return r, t).

(** Evaluate an expression, raising what it raises. *)
Definition eval {R A} (x : res A) : M R A :=
  fun t => match x with Ok a => (Next a, t) | Err e => (Raise e, t) end.

Definition emit {R} (ev : event) : M R unit := fun t => (Next tt, t ++ [ev]).

(** [print(text + repr(v) + ...)]: the line is encoded and written to
    standard output, and the statement raises when the encoding fails.
    What is written is not recorded.  [repr] produces printable
    characters only (it escapes every other code point, surrogates
    included), so the values whose [repr] ends the line are named in
    [reprs] but their text, which cannot make the write fail, is not
    built. *)
Definition py_print {R} (text : pystr) (reprs : list json) : M R unit :=
  fun t =>
    match utf8_encode_error text with
    | Some e => (Raise e, t)
    | None => (Next tt, t)
    end.

(** [if c: body] where the body ends in a [return] or falls through. *)
Definition when {R} (c : bool) (body : M R unit) : M R unit :=
  if c then body else ret tt.

(** [try: body except (classes) as e: handler e]; an exception of another
    class goes on propagating. *)
Definition try_except {R A} (body : M R A) (classes : exc_class -> bool)
    (handler : exc -> M R A) : M R A :=
  fun t =>
    match body t with
    | (Raise e, t') => if classes (exc_cls e) then handler e t' else (Raise e, t')
    | other => other
    end.

(** [except Exception] *)
Definition any_exception (c : exc_class) : bool := true.

(** A call: the callee's [return] value becomes the value of the call
    expression; what it raises, the caller raises. *)
Definition call {R R' : Type} (body : M R' R') : M R R' :=
  fun t =>
    match body t with
    | (Next a, t') => (Next a, t')
    | (Return r, t') => (Next r, t')
    | (Raise e, t') => (Raise e, t')
    end.

(** ** [itinerary_generator2.py] *)

Module Pipeline.

Definition DEFAULT_MODEL : pystr := u8 "gpt-oss:120b-cloud".
Definition FINETUNED_MODEL : pystr := u8 "gpt-oss:120b-cloud".

Definition nl : pystr := [10%N].

(** The table [style_instructions], in source order. *)
Definition style_instructions : list (pystr * pystr) :=
  [ (u8 "Visuel",
     u8 "Utilisez des diagrammes, schémas, cartes mentales et exemples visuels. Structurez clairement avec des couleurs et des icônes.");
    (u8 "Auditif",
     u8 "Expliquez avec des analogies, répétitions et exemples narratifs. Suggérez des mnémoniques et des rythmes.");
    (u8 "Kinesthésique",
     u8 "Proposez des exercices pratiques, des expériences et des manipulations. Incluez des activités interactives.");
    (u8 "Lecture/Écriture",
     u8 "Fournissez des textes détaillés, des listes et des résumés écrits. Encouragez la prise de notes.") ].

Fixpoint table_get (k : pystr) (d : list (pystr * pystr)) : option pystr :=
  match d with
  | [] => None
  | (k', v) :: r => if pystr_eqb k k' then Some v else table_get k r
  end.

(** [style_instructions.get(learning_style, style_instructions["Visuel"])] *)
Definition style_instruction (learning_style : pystr) : pystr :=
  let default :=
    match table_get (u8 "Visuel") style_instructions with
    | Some v => v
    | None => []
    end in
  match table_get learning_style style_instructions with
  | Some v => v
  | None => default
  end.

(** [", ".join(topics) if topics else "général"] *)
Definition topics_text (topics : list json) : res pystr :=
  match topics with
  | [] => Ok (u8 "général")
  | _ :: _ => join (u8 ", ") topics
  end.

Definition duration_text (duration : option Z) : pystr :=
  match duration with
  | Some d =>
      if negb (d =? 0) && (d >? 0)
      then nl ++ u8 "Durée de la session: " ++ str_of_int d ++ u8 " minutes."
      else []
  | None => []
  end.

(** The fixed part of the template that follows the style instruction. *)
Definition sections_text : pystr :=
  u8 "La leçon doit inclure:" ++ nl
  ++ u8 "📚 **Introduction**: Contextualiser le sujet et expliquer son importance" ++ nl
  ++ u8 "🎯 **Objectifs d'apprentissage**: Ce que l'élève saura faire après la leçon" ++ nl
  ++ u8 "📖 **Contenu principal**: Explications claires avec exemples concrets" ++ nl
  ++ u8 "💡 **Exemples pratiques**: Applications réelles et exercices guidés" ++ nl
  ++ u8 "✏️ **Exercices**: Questions de compréhension et problèmes à résoudre" ++ nl
  ++ u8 "🎓 **Résumé**: Points clés à retenir" ++ nl
  ++ u8 "🚀 **Pour aller plus loin**: Ressources et suggestions d'approfondissement" ++ nl ++ nl
  ++ u8 "Formatez la leçon de manière claire et structurée avec des sections bien définies. "
  ++ u8 "Adaptez le vocabulaire et les exemples au niveau de l'élève. "
  ++ u8 "Rendez la leçon interactive et motivante.".

Definition render (subject level learning_style topics_txt duration_txt
                     instruction : pystr) : pystr :=
  u8 "Vous êtes un tuteur éducatif expert, spécialisé dans l'enseignement personnalisé. "
  ++ u8 "Créez une leçon détaillée et engageante pour un élève de niveau "
  ++ level ++ u8 " en " ++ subject ++ u8 ". "
  ++ u8 "Thèmes à couvrir: " ++ topics_txt ++ u8 "."
  ++ duration_txt ++ nl ++ nl
  ++ u8 "Style d'apprentissage de l'élève: " ++ learning_style ++ nl
  ++ instruction ++ nl ++ nl
  ++ sections_text.

Definition build_prompt (subject level learning_style : pystr)
    (topics : list json) (duration : option Z) : res pystr :=
  match topics_text topics with
  | Err e => Err e
  | Ok topics_txt =>
      Ok (render subject level learning_style topics_txt
            (duration_text duration) (style_instruction learning_style))
  end.

Section WithEnvironment.
Context {env : Environment}.

Definition generate_lesson (subject level learning_style : pystr)
    (topics : list json) (duration : option Z) (model_name : json)
  : M json json :=
  emit (CallGenerateLesson subject level learning_style topics duration model_name) ;;
  let model_name := if truthy model_name then model_name else JStr DEFAULT_MODEL in
  prompt <- eval (build_prompt subject level learning_style topics duration) ;;
  try_except
    (emit (CallChat model_name prompt) ;;
     content <- eval (ollama_chat model_name prompt) ;;
     py_return content)
    any_exception
    (fun e => py_return (JStr (u8 "Erreur API: " ++ exc_str e))).

End WithEnvironment.

End Pipeline.

(** ** [app.py]

    The pipeline module is taken to import successfully, so that
    [generate_lesson] is the function of [itinerary_generator2.py] and
    not the stand-in that [app.py] defines when the import fails. *)

Module App.

Import Pipeline.

(** What a view returns: the JSON document and the HTTP status. *)
Record response : Type := mkResponse { body : json; status : Z }.

(** [jsonify(dict)] with the items in the order the source writes them. *)
Definition jsonify (items : list (pystr * json)) : json := JDict items.

(** [jsonify({"error": msg}), 400] *)
Definition bad_request (msg : string) : response :=
  mkResponse (jsonify [(u8 "error", JStr (u8 msg))]) 400.

Definition is_empty (s : pystr) : bool :=
  match s with [] => true | _ => false end.

(** [except (TypeError, ValueError)] *)
Definition type_or_value_error (c : exc_class) : bool :=
  match c with
  | TypeError | ValueError | UnicodeEncodeError => true
  | _ => false
  end.

(** [f"{duration}"] *)
Definition str_of_duration (duration : option Z) : pystr :=
  match duration with
  | Some d => str_of_int d
  | None => u8 "None"
  end.

(** The line logged before the lesson is generated, up to the [repr] of
    the topics that ends it. *)
Definition log_line (subject level learning_style : pystr)
    (duration : option Z) : pystr :=
  u8 "Génération de leçon pour " ++ subject ++ u8 ", niveau " ++ level
  ++ u8 ", style: " ++ learning_style ++ u8 ", durée: "
  ++ str_of_duration duration ++ u8 "min, thèmes: ".

Definition json_of_duration (duration : option Z) : json :=
  match duration with
  | Some d => JInt d
  | None => JNull
  end.

Section WithEnvironment.
Context {env : Environment}.

(** The view function of [POST /api/generate].  Its argument is the
    outcome of [request.get_json()], which is evaluated inside the [try]
    block.  The [print] of the [except] clause is outside any [try]: if
    it raises, the view raises. *)
Definition generate (request_get_json : res json) : M response response :=
  try_except
    (data <- eval request_get_json ;;
     when (negb (truthy data))
       (py_return (bad_request "Aucune donnée fournie")) ;;
     subject <- (v <- eval (method_get data (u8 "subject") (JStr [])) ;;
                 eval (method_strip v)) ;;
     level <- (v <- eval (method_get data (u8 "level") (JStr [])) ;;
               eval (method_strip v)) ;;
     learning_style <-
       (v <- eval (method_get data (u8 "learning_style") (JStr [])) ;;
        eval (method_strip v)) ;;
     topics <- eval (method_get data (u8 "topics") (JList [])) ;;
     duration <- eval (method_get data (u8 "duration") JNull) ;;
     model_name <- eval (method_get data (u8 "model") (JStr DEFAULT_MODEL)) ;;
     when (is_empty subject)
       (py_return (bad_request "Le sujet est requis")) ;;
     when (is_empty level)
       (py_return (bad_request "Le niveau est requis")) ;;
     when (is_empty learning_style)
       (py_return (bad_request "Le style d'apprentissage est requis")) ;;
     topics <- match topics with
               | JList (x :: r) => ret (x :: r)
               | _ => py_return
                        (bad_request "Veuillez sélectionner au moins un thème")
               end ;;
     duration <- match duration with
                 | JNull => ret None
                 | _ =>
                     try_except
                       (d <- eval (py_int duration) ;;
                        when ((d <? 15) || (d >? 180))
                          (py_return
                             (bad_request
                                "La durée doit être entre 15 et 180 minutes")) ;;
                        ret (Some d))
                       type_or_value_error
                       (fun _ =>
                          py_return
                            (bad_request "La durée doit être un nombre valide"))
                 end ;;
     py_print (log_line subject level learning_style duration)
       [JList topics] ;;
     lesson <- call (generate_lesson subject level learning_style topics
                       duration model_name) ;;
     py_return
       (mkResponse
          (jsonify [ (u8 "success", JBool true);
                     (u8 "lesson", lesson);
                     (u8 "subject", JStr subject);
                     (u8 "level", JStr level);
                     (u8 "learning_style", JStr learning_style);
                     (u8 "topics", JList topics);
                     (u8 "duration", json_of_duration duration) ])
          200))
    any_exception
    (fun e =>
       py_print (u8 "Erreur lors de la génération: " ++ exc_str e) [] ;;
       py_return
         (mkResponse
            (jsonify [ (u8 "success", JBool false);
                       (u8 "error",
                        JStr (u8 "Erreur lors de la génération: " ++ exc_str e)) ])
            500)).

End WithEnvironment.

End App.

(** ** Concrete environments

    Instances of [Environment] on which the handler can be run. *)

Module Sample.

(** The first code point of each run of ten decimal digits (Unicode
    14.0, the database of CPython 3.11). *)
Definition decimal_starts : list N :=
  [ 48; 1632; 1776; 1984; 2406; 2534; 2662; 2790; 2918; 3046; 3174; 3302;
    3430; 3558; 3664; 3792; 3872; 4160; 4240; 6112; 6160; 6470; 6608; 6784;
    6800; 6992; 7088; 7232; 7248; 42528; 43216; 43264; 43472; 43504; 43600;
    44016; 65296; 66720; 68912; 69734; 69872; 69942; 70096; 70384; 70736;
    70864; 71248; 71360; 71472; 71904; 72016; 72784; 73040; 73120; 92768;
    92864; 93008; 120782; 120792; 120802; 120812; 120822; 123200; 123632;
    125264; 130032 ]%N.

(** The decimal value of a digit of any script. *)
Definition unicode_decimal (c : N) : option N :=
  match find (fun s => ((s <=? c) && (c <? s + 10))%N) decimal_starts with
  | Some s => Some (c - s)%N
  | None => None
  end.

(** What [int()] does to a [str] before it reads it: code points below
    127 are kept, other whitespace becomes a space, other decimal digits
    become ASCII digits, and the text is cut at the first code point that
    is none of these, where a question mark is put. *)
Fixpoint to_ascii (s : pystr) : pystr :=
  match s with
  | [] => []
  | c :: r =>
      if (c <? 127)%N then c :: to_ascii r
      else if is_space c then 32%N :: to_ascii r
      else match unicode_decimal c with
           | Some d => (48 + d)%N :: to_ascii r
           | None => [63%N]
           end
  end.

(** The whitespace [int()] skips around the numeral. *)
Definition is_ascii_space (c : N) : bool :=
  ((c =? 32) || (9 <=? c) && (c <=? 13))%N.

Fixpoint lstrip_ascii (s : pystr) : pystr :=
  match s with
  | [] => []
  | c :: r => if is_ascii_space c then lstrip_ascii r else s
  end.

(** Decimal digits with single underscores allowed between two digits;
    [room] is the number of digits still allowed. *)
Fixpoint digits (room : nat) (acc : Z) (after_digit : bool) (s : pystr)
  : option Z :=
  match s with
  | [] => if after_digit then Some acc else None
  | c :: r =>
      if (c =? 95)%N then
        if after_digit then digits room acc false r else None
      else if ((48 <=? c) && (c <=? 57))%N then
        match room with
        | O => None
        | S room' => digits room' (acc * 10 + (Z.of_N c - 48)) true r
        end
      else None
  end.

(** The default limit of CPython 3.11 on the digits of a numeral. *)
Definition max_str_digits : nat := 4300.

(** [int(s)] in base ten, as CPython 3.11 reads a [str]: surrounding
    whitespace, an optional sign, then at most 4300 digits of any
    script. *)
Definition python_int_of_str (s : pystr) : option Z :=
  let body := rev (lstrip_ascii (rev (lstrip_ascii (to_ascii s)))) in
  match body with
  | 45%N :: r => option_map Z.opp (digits max_str_digits 0 false r)
  | 43%N :: r => digits max_str_digits 0 false r
  | _ => digits max_str_digits 0 false body
  end.

(** A provider that cannot be reached. *)
Definition offline : Environment := {|
  int_of_str := python_int_of_str;
  ollama_chat := fun _ _ =>
    Err (mkExc OtherError (u8 "Failed to connect to Ollama"))
|}.

(** A provider that answers every prompt with the same text. *)
Definition canned (text : pystr) : Environment := {|
  int_of_str := python_int_of_str;
  ollama_chat := fun _ _ => Ok (JStr text)
|}.

(** The request of the specification's end-to-end example. *)
Definition example_request : json :=
  JDict [ (u8 "subject", JStr (u8 "Mathématiques"));
          (u8 "level", JStr (u8 "Lycée"));
          (u8 "learning_style", JStr (u8 "Visuel"));
          (u8 "topics", JList [JStr (u8 "Algèbre")]);
          (u8 "duration", JInt 60) ].

End Sample.

(** ** The validation rules as the specification words them

    The six checks in their stated order, each as a decidable predicate
    on the parsed body, and the fields a request carries once it has
    passed them. *)

Module Spec.

Import Pipeline App.

Inductive check : Type :=
| BodyGiven | SubjectGiven | LevelGiven | StyleGiven | TopicsGiven
| DurationValid.

Definition order : list check :=
  [BodyGiven; SubjectGiven; LevelGiven; StyleGiven; TopicsGiven; DurationValid].

(** The value stored under [key] when the body is an object that has it. *)
Definition field (data : json) (key : string) : option json :=
  match data with
  | JDict items => assoc_get (u8 key) items
  | _ => None
  end.

(** The body with one field set to another value. *)
Definition with_field (key : string) (v : json) (data : json) : json :=
  match data with
  | JDict d => JDict (assoc_set (u8 key) v d)
  | other => other
  end.

(** A text field once trimmed; a field that is missing, or that holds no
    text, has nothing to offer. *)
Definition trimmed (data : json) (key : string) : pystr :=
  match field data key with
  | Some (JStr s) => strip s
  | _ => []
  end.

Definition topics_of (data : json) : list json :=
  match field data "topics" with
  | Some (JList l) => l
  | _ => []
  end.

Definition model_of (data : json) : json :=
  match field data "model" with
  | Some v => v
  | None => JStr DEFAULT_MODEL
  end.

(** A text field is usable when it is missing or holds a string; a body
    is usable when it is empty or an object whose three text fields
    are. *)
Definition str_or_absent (v : option json) : bool :=
  match v with
  | None | Some (JStr _) => true
  | Some _ => false
  end.

Definition text_fields_typed (data : json) : bool :=
  match data with
  | JDict _ =>
      str_or_absent (field data "subject")
      && str_or_absent (field data "level")
      && str_or_absent (field data "learning_style")
  | _ => negb (truthy data)
  end.

(** The duration is not one of the two infinite floats. *)
Definition duration_finite (data : json) : bool :=
  match field data "duration" with
  | Some (JFloat (FInf _)) => false
  | _ => true
  end.

(** The three text fields, once trimmed, hold no surrogate code point:
    the line the handler logs can be written. *)
Definition printable (data : json) : bool :=
  no_surrogate (trimmed data "subject")
  && no_surrogate (trimmed data "level")
  && no_surrogate (trimmed data "learning_style").

Definition all_strings (l : list json) : bool :=
  forallb (fun x => match x with JStr _ => true | _ => false end) l.

Definition in_range (d : Z) : bool := (15 <=? d) && (d <=? 180).

Definition is_empty_list (l : list json) : bool :=
  match l with [] => true | _ => false end.

Section WithEnvironment.
Context {env : Environment}.

(** The duration once read as an integer; [None] when it is missing or
    null. *)
Definition duration_of (data : json) : option Z :=
  match field data "duration" with
  | None | Some JNull => None
  | Some v => match py_int v with Ok d => Some d | Err _ => None end
  end.

Definition passes (c : check) (data : json) : bool :=
  match c with
  | BodyGiven => truthy data
  | SubjectGiven => negb (is_empty (trimmed data "subject"))
  | LevelGiven => negb (is_empty (trimmed data "level"))
  | StyleGiven => negb (is_empty (trimmed data "learning_style"))
  | TopicsGiven => negb (is_empty_list (topics_of data))
  | DurationValid =>
      match field data "duration" with
      | None | Some JNull => true
      | Some v =>
          match py_int v with
          | Ok d => in_range d
          | Err _ => false
          end
      end
  end.

(** The first check, in the stated order, that the body does not pass. *)
Definition first_failing (data : json) : option check :=
  find (fun c => negb (passes c data)) order.

(** The answer that goes with each failing check. *)
Definition rejection (c : check) (data : json) : response :=
  match c with
  | BodyGiven => bad_request "Aucune donnée fournie"
  | SubjectGiven => bad_request "Le sujet est requis"
  | LevelGiven => bad_request "Le niveau est requis"
  | StyleGiven => bad_request "Le style d'apprentissage est requis"
  | TopicsGiven => bad_request "Veuillez sélectionner au moins un thème"
  | DurationValid =>
      match duration_of data with
      | Some _ => bad_request "La durée doit être entre 15 et 180 minutes"
      | None => bad_request "La durée doit être un nombre valide"
      end
  end.

(** The lesson the pipeline hands back for a rendered prompt. *)
Definition lesson_for (model_name : json) (prompt : pystr) : json :=
  let model := if truthy model_name then model_name else JStr DEFAULT_MODEL in
  match ollama_chat model prompt with
  | Ok content => content
  | Err e => JStr (u8 "Erreur API: " ++ exc_str e)
  end.

End WithEnvironment.

(** The success envelope of the interface description. *)
Definition envelope (lesson : json) (subject level learning_style : pystr)
    (topics : list json) (duration : option Z) : response :=
  mkResponse
    (jsonify [ (u8 "success", JBool true);
               (u8 "lesson", lesson);
               (u8 "subject", JStr subject);
               (u8 "level", JStr level);
               (u8 "learning_style", JStr learning_style);
               (u8 "topics", JList topics);
               (u8 "duration", json_of_duration duration) ])
    200.

(** The error envelope of the generic handler. *)
Definition server_error (e : exc) : response :=
  mkResponse
    (jsonify [ (u8 "success", JBool false);
               (u8 "error",
                JStr (u8 "Erreur lors de la génération: " ++ exc_str e)) ])
    500.

End Spec.

(** ** The handler's decision, as one pure function

    [verdict_of] names what the handler decides before it calls the
    pipeline: a check rejects the request, an exception (of a field
    access, of [int()] or of the logging [print]) escapes to the generic
    handler, or the request goes through.  [answer] is what the pipeline
    phase then produces. *)

Module Decision.

Import Pipeline App Spec.

Inductive verdict : Type :=
| Rejected (c : check)
| Crashed (e : exc)
| Accepted.

(** The exception raised when [.strip()] is called on a field that is
    present but holds no string. *)
Definition strip_error (data : json) (key : string) : option exc :=
  match field data key with
  | None | Some (JStr _) => None
  | Some v => Some (no_attribute v "strip")
  end.

Definition first_error (l : list (option exc)) : option exc :=
  match find (fun o => match o with Some _ => true | None => false end) l with
  | Some o => o
  | None => None
  end.

(** The parsed body was obtained, or the exception [request.get_json()]
    raised has a text that can be written to standard output. *)
Definition parse_error_printable (request_get_json : res json) : bool :=
  match request_get_json with
  | Ok _ => true
  | Err e => no_surrogate (exc_str e)
  end.

(** What the generic [except] clause does with the exception it catches:
    it logs it, then answers; if the log cannot be written, the view
    raises. *)
Definition handled (e : exc) : outcome response response :=
  match utf8_encode_error (u8 "Erreur lors de la génération: " ++ exc_str e) with
  | Some e' => Raise e'
  | None => Return (server_error e)
  end.

Section WithEnvironment.
Context {env : Environment}.

(** The exception [int(duration)] raises that the inner [except] clause
    does not catch. *)
Definition duration_error (data : json) : option exc :=
  match field data "duration" with
  | None | Some JNull => None
  | Some v =>
      match py_int v with
      | Err e => if type_or_value_error (exc_cls e) then None else Some e
      | Ok _ => None
      end
  end.

(** The exception raised when the line logged for a request that has
    passed the checks cannot be written. *)
Definition log_error (data : json) : option exc :=
  utf8_encode_error
    (log_line (trimmed data "subject") (trimmed data "level")
       (trimmed data "learning_style") (duration_of data)).

Definition verdict_of (data : json) : verdict :=
  if negb (truthy data) then Rejected BodyGiven
  else
    match data with
    | JDict _ =>
        match first_error [ strip_error data "subject";
                            strip_error data "level";
                            strip_error data "learning_style" ] with
        | Some e => Crashed e
        | None =>
            match first_failing data with
            | Some DurationValid =>
                match duration_error data with
                | Some e => Crashed e
                | None => Rejected DurationValid
                end
            | Some c => Rejected c
            | None =>
                match log_error data with
                | Some e => Crashed e
                | None => Accepted
                end
            end
        end
    | _ => Crashed (no_attribute data "get")
    end.

(** The response to an accepted request and the calls made for it. *)
Definition answer (data : json) : response * trace :=
  let subject := trimmed data "subject" in
  let level := trimmed data "level" in
  let learning_style := trimmed data "learning_style" in
  let topics := topics_of data in
  let duration := duration_of data in
  let model_name := model_of data in
  let entered :=
    CallGenerateLesson subject level learning_style topics duration model_name in
  match build_prompt subject level learning_style topics duration with
  | Err e => (server_error e, [entered])
  | Ok prompt =>
      (envelope (lesson_for model_name prompt) subject level learning_style
         topics duration,
       [entered;
        CallChat (if truthy model_name then model_name else JStr DEFAULT_MODEL)
          prompt])
  end.

End WithEnvironment.

End Decision.

Import Pipeline App Spec Decision.

(** ** Reading a prompt and a trace *)

Module Text.

(** The topics with the separator between each two neighbours. *)
Definition joined (sep : pystr) (ts : list pystr) : pystr :=
  match ts with
  | [] => []
  | t :: r => t ++ List.concat (map (fun x => sep ++ x) r)
  end.

(** [s.split(", ")]: the pieces of [s] between the occurrences of a comma
    followed by a space, scanning from the left; [cur] holds, reversed,
    the piece being read. *)
Fixpoint unjoin_from (cur : pystr) (s : pystr) : list pystr :=
  match s with
  | [] => [rev cur]
  | c :: r =>
      match r with
      | c' :: r' =>
          if ((c =? 44) && (c' =? 32))%N
          then rev cur :: unjoin_from [] r'
          else unjoin_from (c :: cur) r
      | [] => [rev (c :: cur)]
      end
  end.

Definition unjoin (s : pystr) : list pystr := unjoin_from [] s.

(** Whether a comma followed by a space occurs in [s]. *)
Fixpoint mentions_separator (s : pystr) : bool :=
  match s with
  | [] => false
  | c :: r =>
      match r with
      | c' :: _ => ((c =? 44) && (c' =? 32))%N || mentions_separator r
      | [] => false
      end
  end.

(** The prompts of the chat requests recorded in a trace. *)
Definition prompts_sent (t : trace) : list pystr :=
  flat_map (fun ev => match ev with CallChat _ p => [p] | _ => [] end) t.

(** The keys of the style table. *)
Definition recognized_styles : list pystr := map fst style_instructions.

(** The instruction block of the visual style. *)
Definition visual_instruction : pystr :=
  u8 "Utilisez des diagrammes, schémas, cartes mentales et exemples visuels. Structurez clairement avec des couleurs et des icônes.".

End Text.

(** ** Requests used as examples *)

Module Requests.

Import Sample.

Definition blank_subject : json :=
  JDict [ (u8 "subject", JStr []);
          (u8 "level", JStr (u8 "Lycée"));
          (u8 "learning_style", JStr (u8 "Visuel"));
          (u8 "topics", JList [JStr (u8 "Algèbre")]) ].

Definition blank_subject_numeric_level : json :=
  JDict [ (u8 "subject", JStr []); (u8 "level", JInt 5) ].

Definition no_topics_numeric_style : json :=
  JDict [ (u8 "subject", JStr (u8 "Maths"));
          (u8 "level", JStr (u8 "Lycée"));
          (u8 "learning_style", JInt 7);
          (u8 "topics", JList []) ].

Definition history (topics duration : json) : json :=
  JDict [ (u8 "subject", JStr (u8 "Histoire"));
          (u8 "level", JStr (u8 "Collège"));
          (u8 "learning_style", JStr (u8 "Visuel"));
          (u8 "topics", topics);
          (u8 "duration", duration) ].

Definition padded_subject : json :=
  with_field "subject" (JStr (u8 " Mathématiques ")) example_request.

(** The double nearest to 180.9 is 6364852910869709 * 2^-45. *)
Definition fractional_duration : json :=
  with_field "duration" (JFloat (FFinite 6364852910869709 (-45)))
    example_request.

Definition textual_duration : json :=
  with_field "duration" (JStr (u8 "60")) example_request.

Definition unknown_style : json :=
  with_field "learning_style" (JStr (u8 "Musical")) example_request.

(** The JSON text ["Maths\ud83d"]: a subject that ends in one half of a
    surrogate pair. *)
Definition surrogate_subject : json :=
  with_field "subject" (JStr (u8 "Maths" ++ [55357%N])) example_request.

(** A blank subject together with the duration [1e999]. *)
Definition blank_subject_infinite_duration : json :=
  with_field "duration" (JFloat (FInf false)) blank_subject.

(** The duration sixty in Arabic-Indic digits, between a no-break space
    and an em space. *)
Definition arabic_duration : json :=
  with_field "duration" (JStr ([160%N] ++ u8 "٦٠" ++ [8195%N]))
    example_request.

(** The prompt rendered for the specification's example. *)
Definition example_prompt : pystr :=
  render (u8 "Mathématiques") (u8 "Lycée") (u8 "Visuel") (u8 "Algèbre")
    (duration_text (Some 60)) (style_instruction (u8 "Visuel")).

End Requests.

(** The status of the response a run of the handler ends with. *)
Definition status_of (run : outcome response response * trace) : option Z :=
  match run with
  | (Return r, _) => Some (status r)
  | _ => None
  end.

(** ** The rest of [app.py]

    The two static routes, and the handler as it runs when the import of
    the pipeline module has failed and [generate_lesson] is the stand-in
    defined in [app.py]. *)

Module Routes.

(** [GET /api/models] *)
Definition get_models : response :=
  mkResponse
    (jsonify [ (u8 "models",
                JList [ JStr DEFAULT_MODEL; JStr FINETUNED_MODEL;
                        JStr (u8 "llama2:7b"); JStr (u8 "gemma:7b") ]);
               (u8 "default", JStr DEFAULT_MODEL) ])
    200.

(** [GET /api/health] *)
Definition health : response :=
  mkResponse
    (jsonify [ (u8 "status", JStr (u8 "ok"));
               (u8 "message",
                JStr (u8 "API du tuteur éducatif opérationnelle")) ])
    200.

(** The type of a lesson generator, as the handler calls it. *)
Definition lesson_function : Type :=
  pystr -> pystr -> pystr -> list json -> option Z -> json -> M json json.

(** The stand-in of the [except ImportError] branch: it ignores its
    arguments and returns a fixed text. *)
Definition fallback_generate_lesson : lesson_function :=
  fun subject level learning_style topics duration model_name =>
    py_return
      (JStr (u8 "Erreur: Le fichier tutor_generator.py n'a pas été trouvé. Assurez-vous qu'il est dans le même dossier que app.py")).

(** The name [DEFAULT_MODEL] as the same branch binds it. *)
Definition fallback_DEFAULT_MODEL : pystr := u8 "gpt-oss:120b-cloud".

Section WithEnvironment.
Context {env : Environment}.

(** The view function of [POST /api/generate] with the lesson generator
    and the default model name the module-level [try] has bound. *)
Definition generate_with (generate_lesson : lesson_function)
    (DEFAULT_MODEL : pystr) (request_get_json : res json)
  : M response response :=
  try_except
    (data <- eval request_get_json ;;
     when (negb (truthy data))
       (py_return (bad_request "Aucune donnée fournie")) ;;
     subject <- (v <- eval (method_get data (u8 "subject") (JStr [])) ;;
                 eval (method_strip v)) ;;
     level <- (v <- eval (method_get data (u8 "level") (JStr [])) ;;
               eval (method_strip v)) ;;
     learning_style <-
       (v <- eval (method_get data (u8 "learning_style") (JStr [])) ;;
        eval (method_strip v)) ;;
     topics <- eval (method_get data (u8 "topics") (JList [])) ;;
     duration <- eval (method_get data (u8 "duration") JNull) ;;
     model_name <- eval (method_get data (u8 "model") (JStr DEFAULT_MODEL)) ;;
     when (is_empty subject)
       (py_return (bad_request "Le sujet est requis")) ;;
     when (is_empty level)
       (py_return (bad_request "Le niveau est requis")) ;;
     when (is_empty learning_style)
       (py_return (bad_request "Le style d'apprentissage est requis")) ;;
     topics <- match topics with
               | JList (x :: r) => ret (x :: r)
               | _ => py_return
                        (bad_request "Veuillez sélectionner au moins un thème")
               end ;;
     duration <- match duration with
                 | JNull => ret None
                 | _ =>
                     try_except
                       (d <- eval (py_int duration) ;;
                        when ((d <? 15) || (d >? 180))
                          (py_return
                             (bad_request
                                "La durée doit être entre 15 et 180 minutes")) ;;
                        ret (Some d))
                       type_or_value_error
                       (fun _ =>
                          py_return
                            (bad_request "La durée doit être un nombre valide"))
                 end ;;
     py_print (log_line subject level learning_style duration)
       [JList topics] ;;
     lesson <- call (generate_lesson subject level learning_style topics
                       duration model_name) ;;
     py_return
       (mkResponse
          (jsonify [ (u8 "success", JBool true);
                     (u8 "lesson", lesson);
                     (u8 "subject", JStr subject);
                     (u8 "level", JStr level);
                     (u8 "learning_style", JStr learning_style);
                     (u8 "topics", JList topics);
                     (u8 "duration", json_of_duration duration) ])
          200))
    any_exception
    (fun e =>
       py_print (u8 "Erreur lors de la génération: " ++ exc_str e) [] ;;
       py_return
         (mkResponse
            (jsonify [ (u8 "success", JBool false);
                       (u8 "error",
                        JStr (u8 "Erreur lors de la génération: " ++ exc_str e)) ])
            500)).

(** The last two statements of the [try] block, for a request the
    validation has let through and whose log line has been written. *)
Definition pipeline_phase (generate_lesson : lesson_function)
    (DEFAULT_MODEL : pystr) (data : json) : M response response :=
  let subject := trimmed data "subject" in
  let level := trimmed data "level" in
  let learning_style := trimmed data "learning_style" in
  let topics := topics_of data in
  let duration := duration_of data in
  let model_name := match field data "model" with
                    | Some v => v
                    | None => JStr DEFAULT_MODEL
                    end in
  try_except
    (lesson <- call (generate_lesson subject level learning_style topics
                       duration model_name) ;;
     py_return (envelope lesson subject level learning_style topics duration))
    any_exception
    (fun e =>
       py_print (u8 "Erreur lors de la génération: " ++ exc_str e) [] ;;
       py_return (server_error e)).

(** The handler of the degraded deployment. *)
Definition generate_without_pipeline : res json -> M response response :=
  generate_with fallback_generate_lesson fallback_DEFAULT_MODEL.

End WithEnvironment.

(** The messages of the seven validation returns. *)
Definition validation_messages : list string :=
  [ "Aucune donnée fournie"; "Le sujet est requis"; "Le niveau est requis";
    "Le style d'apprentissage est requis";
    "Veuillez sélectionner au moins un thème";
    "La durée doit être entre 15 et 180 minutes";
    "La durée doit être un nombre valide" ]%string.

(** The six keys the handler reads. *)
Definition request_keys : list string :=
  ["subject"; "level"; "learning_style"; "topics"; "duration"; "model"]%string.

(** The chat requests recorded in a trace, with their model. *)
Definition chats (t : trace) : list (json * pystr) :=
  flat_map (fun ev => match ev with
                      | CallChat m p => [(m, p)]
                      | _ => []
                      end) t.

End Routes.

(** * Properties *)

Import Text Routes.

(** ** What can be written to standard output *)

Lemma no_surrogate_app a b :
  no_surrogate (a ++ b) = no_surrogate a && no_surrogate b.
Proof. apply forallb_app. Qed.

Lemma no_surrogate_bytes s : no_surrogate (bytes_of s) = true.
Proof.
  induction s as [|a r IH]; [reflexivity|].
  cbn [bytes_of]. change (no_surrogate (?c :: ?l))
    with (negb (is_surrogate c) && no_surrogate l).
  rewrite IH, andb_true_r. unfold is_surrogate.
  pose proof (N_ascii_bounded a).
  destruct (N.leb_spec 55296 (N_of_ascii a)); [lia | reflexivity].
Qed.

Lemma no_surrogate_str_of_int n : no_surrogate (str_of_int n) = true.
Proof. apply no_surrogate_bytes. Qed.

Lemma hex_digit_plain d : (d < 16)%N -> is_surrogate (hex_digit d) = false.
Proof.
  intros H. unfold is_surrogate, hex_digit.
  destruct (d <? 10)%N;
    match goal with |- (?a <=? ?b)%N && _ = _ =>
      destruct (N.leb_spec a b); [lia | reflexivity] end.
Qed.

Lemma no_surrogate_hex4 c : no_surrogate (hex4 c) = true.
Proof.
  unfold hex4, no_surrogate, forallb.
  rewrite !hex_digit_plain by (apply N.mod_upper_bound; discriminate).
  reflexivity.
Qed.

Lemma no_surrogate_type_name v : no_surrogate (type_name v) = true.
Proof. destruct v; vm_compute; reflexivity. Qed.

Lemma no_surrogate_str_of_duration d : no_surrogate (str_of_duration d) = true.
Proof.
  destruct d; [apply no_surrogate_str_of_int | vm_compute; reflexivity].
Qed.

Lemma no_surrogate_app_true a b :
  no_surrogate a = true -> no_surrogate b = true ->
  no_surrogate (a ++ b) = true.
Proof. intros Ha Hb. now rewrite no_surrogate_app, Ha, Hb. Qed.

(** A text put together from literals, numerals and type names. *)
Ltac plain :=
  cbn [exc_str];
  match goal with
  | H : no_surrogate ?s = true |- no_surrogate ?s = true => exact H
  | |- no_surrogate (_ ++ _) = true => apply no_surrogate_app_true; plain
  | |- no_surrogate (str_of_int _) = true => apply no_surrogate_str_of_int
  | |- no_surrogate (hex4 _) = true => apply no_surrogate_hex4
  | |- no_surrogate (type_name _) = true => apply no_surrogate_type_name
  | |- no_surrogate (str_of_duration _) = true =>
      apply no_surrogate_str_of_duration
  | |- no_surrogate (u8 _) = true => vm_compute; reflexivity
  end.

Lemma surrogates_not_allowed_plain pos c run :
  no_surrogate (exc_str (surrogates_not_allowed pos c run)) = true.
Proof. unfold surrogates_not_allowed. destruct run as [|[|run]]; plain. Qed.

Lemma encode_error_from_none s : forall pos,
  encode_error_from pos s = None <-> no_surrogate s = true.
Proof.
  induction s as [|c r IH]; intros pos; [simpl; tauto|].
  cbn [encode_error_from no_surrogate forallb].
  destruct (is_surrogate c); [split; discriminate|]. apply IH.
Qed.

Lemma encode_error_from_some s : forall pos e,
  encode_error_from pos s = Some e ->
  exc_cls e = UnicodeEncodeError /\ no_surrogate (exc_str e) = true.
Proof.
  induction s as [|c r IH]; intros pos e; [discriminate|].
  cbn [encode_error_from]. destruct (is_surrogate c); [|apply IH].
  intros [= <-]. split; [reflexivity | apply surrogates_not_allowed_plain].
Qed.

(** A text is written exactly when it holds no surrogate. *)
Lemma utf8_encode_error_none s :
  utf8_encode_error s = None <-> no_surrogate s = true.
Proof. apply encode_error_from_none. Qed.

(** The exception raised otherwise is a [UnicodeEncodeError] whose own
    text can be written. *)
Lemma utf8_encode_error_some s e :
  utf8_encode_error s = Some e ->
  exc_cls e = UnicodeEncodeError /\ no_surrogate (exc_str e) = true.
Proof. apply encode_error_from_some. Qed.

Lemma Err_inj {A : Type} (a b : exc) : @Err A a = Err b -> a = b.
Proof. now intros [= ->]. Qed.

Ltac raised := let H := fresh in intros H; apply Err_inj in H; subst.


Lemma py_int_error_plain {env : Environment} v e :
  py_int v = Err e -> no_surrogate (exc_str e) = true.
Proof.
  destruct v as [| b | n | [| |m x] | s | l | items]; cbn [py_int];
    try discriminate; try (raised; plain).
  destruct (int_of_str s); [discriminate|]. raised; plain.
Qed.

Lemma join_from_error_plain sep l : forall i e,
  join_from i sep l = Err e -> no_surrogate (exc_str e) = true.
Proof.
  induction l as [|x r IH]; intros i e; [discriminate|].
  cbn [join_from].
  destruct x; try (raised; plain).
  destruct r as [|y r']; [discriminate|].
  destruct (join_from (S i) sep (y :: r')) as [txt|e'] eqn:E; [discriminate|].
  raised. exact (IH _ _ E).
Qed.

Lemma build_prompt_error_plain subject level learning_style topics duration e :
  build_prompt subject level learning_style topics duration = Err e ->
  no_surrogate (exc_str e) = true.
Proof.
  unfold build_prompt, topics_text.
  destruct topics as [|x r]; [discriminate|].
  destruct (join _ (x :: r)) as [txt|e'] eqn:E; [discriminate|].
  raised. exact (join_from_error_plain _ _ _ _ E).
Qed.

(** The generic [except] clause answers whenever the text of the
    exception can be written. *)
Lemma handled_plain e :
  no_surrogate (exc_str e) = true -> handled e = Return (server_error e).
Proof.
  intros H. unfold handled.
  assert (no_surrogate (u8 "Erreur lors de la génération: " ++ exc_str e) = true)
    as Hp by plain.
  apply utf8_encode_error_none in Hp. now rewrite Hp.
Qed.

Lemma handled_surrogate e :
  no_surrogate (exc_str e) = false ->
  exists e', handled e = Raise e' /\ exc_cls e' = UnicodeEncodeError.
Proof.
  intros H. unfold handled.
  destruct (utf8_encode_error _) as [e'|] eqn:E.
  - exists e'. split; [reflexivity|]. exact (proj1 (utf8_encode_error_some _ _ E)).
  - apply utf8_encode_error_none in E.
    rewrite (no_surrogate_app _ (exc_str e)), H, andb_false_r in E.
    discriminate.
Qed.

(** The line logged for an accepted request can be written exactly when
    its three text fields can. *)
Lemma log_line_plain subject level learning_style duration :
  no_surrogate (log_line subject level learning_style duration)
  = no_surrogate subject && no_surrogate level && no_surrogate learning_style.
Proof.
  unfold log_line.
  rewrite (no_surrogate_app _ (subject ++ _)), (no_surrogate_app subject),
    (no_surrogate_app _ (level ++ _)), (no_surrogate_app level),
    (no_surrogate_app _ (learning_style ++ _)),
    (no_surrogate_app learning_style), (no_surrogate_app _ (_ ++ _)),
    (no_surrogate_app (str_of_duration _)), no_surrogate_str_of_duration.
  replace (no_surrogate (u8 "Génération de leçon pour ")) with true
    by (vm_compute; reflexivity).
  replace (no_surrogate (u8 ", niveau ")) with true by (vm_compute; reflexivity).
  replace (no_surrogate (u8 ", style: ")) with true by (vm_compute; reflexivity).
  replace (no_surrogate (u8 ", durée: ")) with true by (vm_compute; reflexivity).
  replace (no_surrogate (u8 "min, thèmes: ")) with true
    by (vm_compute; reflexivity).
  cbn [andb]. rewrite !andb_true_r, andb_assoc. reflexivity.
Qed.

Section Refinement.
Context {env : Environment}.

Lemma log_error_none data : log_error data = None <-> printable data = true.
Proof.
  unfold log_error, printable.
  rewrite utf8_encode_error_none, log_line_plain. tauto.
Qed.

Lemma log_error_some data e :
  log_error data = Some e ->
  exc_cls e = UnicodeEncodeError /\ no_surrogate (exc_str e) = true.
Proof. apply utf8_encode_error_some. Qed.

(** A call of [generate_lesson] enters the function, renders the prompt
    and, if that succeeds, makes one chat request whose failure is turned
    into text. *)
Lemma call_generate_lesson (R : Type) subject level learning_style topics
    duration model_name (t : trace) :
  call (R := R)
    (generate_lesson subject level learning_style topics duration model_name) t
  = let entered :=
      CallGenerateLesson subject level learning_style topics duration
        model_name in
    match build_prompt subject level learning_style topics duration with
    | Err e => (Raise e, t ++ [entered])
    | Ok prompt =>
        (Next (lesson_for model_name prompt),
         t ++ [entered;
               CallChat
                 (if truthy model_name then model_name else JStr DEFAULT_MODEL)
                 prompt])
    end.
Proof.
  unfold call, generate_lesson, lesson_for, try_except, bind, eval, emit,
    py_return.
  cbv zeta.
  destruct (build_prompt subject level learning_style topics duration)
    as [prompt|e]; [|reflexivity].
  destruct (ollama_chat _ prompt); rewrite <- app_assoc; reflexivity.
Qed.

Lemma in_range_bounds d : in_range d = true <-> 15 <= d <= 180.
Proof. unfold in_range. rewrite andb_true_iff, !Z.leb_le. tauto. Qed.

(** The generic [except] clause, as the handler writes it. *)
Lemma except_clause e (t : trace) :
  (py_print (u8 "Erreur lors de la génération: " ++ exc_str e) [] ;;
   py_return (server_error e)) t
  = (handled e, t).
Proof.
  unfold bind, py_print, handled, py_return.
  destruct (utf8_encode_error _); reflexivity.
Qed.

(** When [request.get_json()] raises, the generic handler logs and
    answers. *)
Lemma generate_unparsed e t : generate (Err e) t = (handled e, t).
Proof. unfold generate, try_except. cbn. apply except_clause. Qed.

Lemma try_except_any {R A} (body : M R A) handler handler' t :
  (forall e t', handler e t' = handler' e t') ->
  try_except body any_exception handler t
  = try_except body any_exception handler' t.
Proof.
  intros H. unfold try_except. destruct (body t) as [[a|r|e] t']; auto.
  apply H.
Qed.

End Refinement.

(** Both sides of an equation between outcomes, evaluated as far as
    their outer constructor. *)
Ltac outcomes :=
  match goal with
  | |- ?L = ?R =>
      let L' := eval hnf in L in
      let R' := eval hnf in R in
      change (L' = R')
  end.

(** A goal in which an exception whose text can be written reaches the
    generic [except] clause. *)
Ltac crashed Hh :=
  outcomes;
  rewrite Hh by first [ eassumption | plain | vm_compute; reflexivity ];
  reflexivity.

(** From the logging [print] on: the line is written or the generic
    clause takes over; then the lesson is generated, or rendering the
    prompt raises and the generic clause takes over. *)
Ltac logged Hh :=
  unfold py_print;
  destruct (utf8_encode_error _) as [e'|] eqn:E;
  [ outcomes; rewrite (Hh e' (proj2 (utf8_encode_error_some _ _ E)));
    reflexivity
  | cbv beta iota; rewrite call_generate_lesson; cbv zeta;
    destruct (build_prompt _ _ _ _ _) as [prompt|e'] eqn:B;
    [ reflexivity
    | outcomes; rewrite (Hh e' (build_prompt_error_plain _ _ _ _ _ _ B));
      reflexivity ] ].

Section Refines.
Context {env : Environment}.

(** The handler computes [verdict_of], then [answer]. *)
Lemma generate_refines data t :
  generate (Ok data) t =
  match verdict_of data with
  | Rejected c => (Return (rejection c data), t)
  | Crashed e => (Return (server_error e), t)
  | Accepted => (Return (fst (answer data)), t ++ snd (answer data))
  end.
Proof.
  unfold generate.
  rewrite (try_except_any _ _ (fun e t' => (handled e, t')))
    by (intros; apply except_clause).
  pose proof handled_plain as Hh. revert Hh. generalize handled as h.
  intros h Hh.
  destruct data as [| b | n | [| |m e] | s | l | items].
  all: try reflexivity.
  all: try (destruct b; [crashed Hh | reflexivity]).
  all: try (destruct s; [reflexivity | crashed Hh]).
  all: try (destruct l; [reflexivity | crashed Hh]).
  all: try crashed Hh.
  all: try (unfold verdict_of, truthy; destruct (_ =? 0) eqn:E;
            [ unfold try_except, bind, eval, when; simpl; rewrite E;
              reflexivity
            | cbv [negb]; unfold try_except, bind, eval, when; simpl;
                rewrite E; cbv [negb]; apply f_equal2; [|reflexivity];
                apply Hh; vm_compute; reflexivity ]).
  destruct items as [|it items']; [reflexivity|].
  set (items := it :: items').
  unfold verdict_of, first_error, first_failing, strip_error, duration_error,
    log_error, answer, rejection, passes, trimmed, topics_of, duration_of,
    model_of, order, field.
  unfold try_except, bind, eval, when, method_get, method_strip.
  change (truthy (JDict items)) with true. cbv [negb].
  destruct (assoc_get (u8 "subject") items) as [[]|]; try crashed Hh.
  all: destruct (assoc_get (u8 "level") items) as [[]|]; try crashed Hh.
  all: destruct (assoc_get (u8 "learning_style") items) as [[]|];
    try crashed Hh.
  all: repeat match goal with
       | |- context [strip ?s] => is_var s; destruct (strip s); try reflexivity
       end.
  all: try reflexivity.
  all: destruct (assoc_get (u8 "topics") items) as [[| | | | |[|x r]|]|];
    try reflexivity.
  all: cbv [is_empty is_empty_list negb find].
  all: destruct (assoc_get (u8 "duration") items) as [[| | |[| |]| | |]|].
  all: cbv [ret py_return].
  all: try logged Hh.
  all: destruct (py_int _) as [d|err] eqn:P.
  all: try (destruct (type_or_value_error (exc_cls err));
            [ reflexivity
            | outcomes; rewrite (Hh err (py_int_error_plain _ _ P));
              reflexivity ]).
  all: unfold in_range; rewrite Z.gtb_ltb.
  all: destruct (Z.ltb_spec d 15), (Z.ltb_spec 180 d), (Z.leb_spec 15 d),
         (Z.leb_spec d 180); try lia; try reflexivity.
  all: cbv [orb andb]; logged Hh.
Qed.

End Refines.

(** ** Reading the verdict off the checks *)

Section Verdicts.
Context {env : Environment}.

(** No check fails exactly when every check passes. *)
Lemma first_failing_none data :
  first_failing data = None <-> forall c, passes c data = true.
Proof.
  unfold first_failing. split.
  - intros H c. 
    assert (In c order) as Hin by (destruct c; simpl; tauto).
    pose proof (find_none _ _ H c Hin) as Hc. simpl in Hc.
    now apply negb_false_iff in Hc.
  - intros H. unfold order. cbn [find]. rewrite !H. reflexivity.
Qed.

Lemma first_failing_some data c :
  passes c data = false -> exists c', first_failing data = Some c'.
Proof.
  intros H. destruct (first_failing data) as [c'|] eqn:E; [eauto|].
  rewrite first_failing_none in E. rewrite E in H. discriminate.
Qed.

Lemma first_failing_fails data c :
  first_failing data = Some c -> passes c data = false.
Proof.
  unfold first_failing. intros H. apply find_some in H. destruct H as [_ H].
  now apply negb_true_iff in H.
Qed.

(** With usable text fields, a non-empty body is an object and no
    [.strip()] call raises. *)
Lemma typed_no_strip_error data :
  text_fields_typed data = true -> truthy data = true ->
  (exists items, data = JDict items) /\
  first_error [ strip_error data "subject"; strip_error data "level";
                strip_error data "learning_style" ] = None.
Proof.
  intros Ht Htr.
  destruct data; try (unfold text_fields_typed in Ht; rewrite Htr in Ht; discriminate Ht).
  split; [eauto|].
  unfold text_fields_typed, str_or_absent in Ht. unfold first_error, strip_error.
  destruct (field _ "subject") as [[]|]; try discriminate Ht;
  destruct (field _ "level") as [[]|]; try discriminate Ht;
  destruct (field _ "learning_style") as [[]|]; try discriminate Ht; reflexivity.
Qed.

Lemma finite_no_duration_error data :
  duration_finite data = true -> duration_error data = None.
Proof.
  unfold duration_finite, duration_error.
  destruct (field data "duration") as [[| | |[| |]| | |]|]; try reflexivity; try discriminate.
  simpl. destruct (int_of_str s); reflexivity.
Qed.


(** The ways the validation phase can end. *)
Lemma verdict_rejected data c :
  text_fields_typed data = true ->
  (c = DurationValid -> duration_finite data = true) ->
  first_failing data = Some c -> verdict_of data = Rejected c.
Proof.
  intros Ht Hd Hf. unfold verdict_of.
  destruct (truthy data) eqn:Htr; simpl.
  - destruct (typed_no_strip_error data Ht Htr) as [[items ->] ->].
    rewrite Hf. destruct c; try reflexivity.
    now rewrite (finite_no_duration_error _ (Hd eq_refl)).
  - unfold first_failing in Hf. simpl in Hf. rewrite Htr in Hf. simpl in Hf.
    congruence.
Qed.

Lemma verdict_logged data :
  text_fields_typed data = true -> first_failing data = None ->
  verdict_of data
  = match log_error data with Some e => Crashed e | None => Accepted end.
Proof.
  intros Ht Hf. unfold verdict_of.
  assert (truthy data = true) as Htr
    by (rewrite first_failing_none in Hf; exact (Hf BodyGiven)).
  rewrite Htr. simpl.
  destruct (typed_no_strip_error data Ht Htr) as [[items ->] ->].
  rewrite Hf. reflexivity.
Qed.

Lemma verdict_accepted data :
  text_fields_typed data = true -> first_failing data = None ->
  printable data = true -> verdict_of data = Accepted.
Proof.
  intros Ht Hf Hp. rewrite (verdict_logged _ Ht Hf).
  apply log_error_none in Hp. now rewrite Hp.
Qed.

(** A request that passes the checks but whose log line cannot be
    written ends in the generic handler. *)
Lemma verdict_unprintable data :
  text_fields_typed data = true -> first_failing data = None ->
  printable data = false ->
  exists e, verdict_of data = Crashed e /\ exc_cls e = UnicodeEncodeError.
Proof.
  intros Ht Hf Hp. rewrite (verdict_logged _ Ht Hf).
  destruct (log_error data) as [e|] eqn:E.
  - exists e. split; [reflexivity|]. exact (proj1 (log_error_some _ _ E)).
  - apply log_error_none in E. congruence.
Qed.

Lemma verdict_untyped data :
  text_fields_typed data = false ->
  exists e, verdict_of data = Crashed e /\ exc_cls e = AttributeError.
Proof.
  intros Ht. unfold verdict_of.
  destruct data as [| b | n | x | s | l | items];
    try (unfold text_fields_typed in Ht; apply negb_false_iff in Ht; rewrite Ht; simpl; eexists; split; reflexivity).
  assert (truthy (JDict items) = true) as ->.
  { destruct items; [discriminate Ht | reflexivity]. }
  simpl. unfold text_fields_typed, str_or_absent in Ht. unfold first_error, strip_error.
  destruct (field _ "subject") as [[]|]; try (eexists; split; reflexivity);
  destruct (field _ "level") as [[]|]; try (eexists; split; reflexivity);
  destruct (field _ "learning_style") as [[]|]; try (eexists; split; reflexivity); discriminate Ht.
Qed.

Lemma verdict_accepted_inv data :
  verdict_of data = Accepted ->
  text_fields_typed data = true /\ first_failing data = None
  /\ printable data = true.
Proof.
  intros H. destruct (text_fields_typed data) eqn:Ht.
  - split; [reflexivity|].
    destruct (first_failing data) as [c|] eqn:Hf.
    + unfold verdict_of in H. 
      destruct (truthy data) eqn:Htr; simpl in H; [|discriminate].
      destruct (typed_no_strip_error data Ht Htr) as [[items ->] E].
      rewrite E, Hf in H.
      destruct c; try discriminate. destruct (duration_error _); discriminate.
    + split; [reflexivity|]. rewrite (verdict_logged _ Ht Hf) in H.
      destruct (log_error data) eqn:E; [discriminate|].
      now apply log_error_none.
  - destruct (verdict_untyped data Ht) as [e [E _]]. congruence.
Qed.

(** A rejection comes from the first failing check. *)
Lemma verdict_rejected_inv data c :
  verdict_of data = Rejected c -> first_failing data = Some c.
Proof.
  unfold verdict_of. destruct (truthy data) eqn:Tr; cbn [negb].
  - destruct data as [| | | | | |items]; try discriminate.
    destruct (first_error _); [discriminate|].
    destruct (first_failing (JDict items)) as [c'|]; 
      [|destruct (log_error _); discriminate].
    destruct c'; try (intros [= <-]; reflexivity).
    destruct (duration_error _); [discriminate|]. intros [= <-]. reflexivity.
  - intros [= <-]. unfold first_failing, order. cbn [find passes].
    now rewrite Tr.
Qed.


End Verdicts.

(** ** Strings, joins and dictionaries *)

Lemma pystr_eqb_eq a b : pystr_eqb a b = true <-> a = b.
Proof.
  revert b. induction a as [|x a IH]; intros [|y b]; simpl; split;
    try discriminate; try reflexivity.
  - rewrite andb_true_iff, N.eqb_eq, IH. intros [-> ->]. reflexivity.
  - intros H. injection H as -> ->. rewrite N.eqb_refl. simpl. now apply IH.
Qed.

Lemma pystr_eqb_neq a b : a <> b -> pystr_eqb a b = false.
Proof.
  intros H. destruct (pystr_eqb a b) eqn:E; [|reflexivity].
  apply pystr_eqb_eq in E. contradiction.
Qed.

Lemma assoc_get_set_same key v d : assoc_get key (assoc_set key v d) = Some v.
Proof.
  induction d as [|[k x] r IH]; simpl.
  - assert (pystr_eqb key key = true) as -> by now apply pystr_eqb_eq.
    reflexivity.
  - destruct (pystr_eqb key k) eqn:E; simpl; rewrite E; [reflexivity|exact IH].
Qed.

Lemma assoc_get_set_other key key' v d :
  pystr_eqb key' key = false ->
  assoc_get key' (assoc_set key v d) = assoc_get key' d.
Proof.
  intros H. induction d as [|[k x] r IH]; simpl.
  - now rewrite H.
  - destruct (pystr_eqb key k) eqn:E; simpl.
    + apply pystr_eqb_eq in E. subst k. now rewrite H.
    + now rewrite IH.
Qed.

(** Joining strings never fails and interleaves the separator. *)
Lemma join_texts sep ts i : join_from i sep (map JStr ts) = Ok (joined sep ts).
Proof.
  revert i. induction ts as [|t r IH]; intros i; [reflexivity|].
  cbn [map join_from]. destruct r as [|t' r'].
  - simpl. now rewrite app_nil_r.
  - change (JStr t' :: map JStr r') with (map JStr (t' :: r')).
    cbn [map]. change (JStr t' :: map JStr r') with (map JStr (t' :: r')).
    rewrite IH. unfold joined. cbn [map List.concat]. now rewrite <- app_assoc.
Qed.

Lemma join_from_strings i sep l :
  all_strings l = true -> exists s, join_from i sep l = Ok s.
Proof.
  revert i. induction l as [|x r IH]; intros i H; [eexists; reflexivity|].
  simpl in H. destruct x; try discriminate H. simpl in H.
  destruct (IH (S i) H) as [s0 E]. cbn [join_from].
  destruct r; [eexists; reflexivity|]. rewrite E. eexists; reflexivity.
Qed.

(** An item that is not a string makes the join raise [TypeError]. *)
Lemma join_from_non_string i sep l :
  all_strings l = false ->
  exists e, join_from i sep l = Err e /\ exc_cls e = TypeError.
Proof.
  revert i. induction l as [|x r IH]; intros i H; [discriminate H|].
  simpl in H. destruct x; try (eexists; split; reflexivity).
  simpl in H. destruct (IH (S i) H) as [e [E C]]. cbn [join_from].
  destruct r; [discriminate H|]. rewrite E. eauto.
Qed.

Lemma build_prompt_strings subject level learning_style topics duration :
  all_strings topics = true ->
  exists prompt,
    build_prompt subject level learning_style topics duration = Ok prompt.
Proof.
  intros H. unfold build_prompt, topics_text.
  destruct topics as [|x r]; [eexists; reflexivity|].
  destruct (join_from_strings 0 (u8 ", ") (x :: r) H) as [s E].
  unfold join. rewrite E. eexists; reflexivity.
Qed.

Lemma build_prompt_non_string subject level learning_style topics duration :
  all_strings topics = false ->
  exists e,
    build_prompt subject level learning_style topics duration = Err e
    /\ exc_cls e = TypeError.
Proof.
  intros H. unfold build_prompt, topics_text.
  destruct topics as [|x r]; [discriminate H|].
  destruct (join_from_non_string 0 (u8 ", ") (x :: r) H) as [e [E C]].
  unfold join. rewrite E. eauto.
Qed.

(** Splitting reads back one topic up to the next separator. *)
Lemma unjoin_from_topic t : forall cur rest,
  mentions_separator t = false ->
  unjoin_from cur (t ++ 44%N :: 32%N :: rest)
  = (rev cur ++ t) :: unjoin_from [] rest.
Proof.
  induction t as [|c t' IH]; intros cur rest H.
  - simpl. now rewrite app_nil_r.
  - cbn [app unjoin_from]. destruct t' as [|c' t''].
    + cbn [app]. replace ((c =? 44) && (44 =? 32))%N with false
        by (now rewrite andb_false_r).
      pose proof (IH (c :: cur) rest eq_refl) as E. cbn [app] in E.
      rewrite E. cbn [rev]. now rewrite <- app_assoc.
    + cbn [app]. cbn [mentions_separator] in H. apply orb_false_iff in H.
      destruct H as [H1 H2]. rewrite H1.
      change (c' :: t'' ++ 44%N :: 32%N :: rest)
        with ((c' :: t'') ++ 44%N :: 32%N :: rest).
      rewrite (IH (c :: cur) rest H2). cbn [rev]. now rewrite <- app_assoc.
Qed.

Lemma unjoin_from_last t : forall cur,
  mentions_separator t = false -> unjoin_from cur t = [rev cur ++ t].
Proof.
  induction t as [|c t' IH]; intros cur H.
  - simpl. now rewrite app_nil_r.
  - cbn [unjoin_from]. destruct t' as [|c' t''].
    + reflexivity.
    + cbn [mentions_separator] in H. apply orb_false_iff in H.
      destruct H as [H1 H2]. rewrite H1, (IH (c :: cur) H2).
      cbn [rev]. now rewrite <- app_assoc.
Qed.

(** Splitting the joined text gives the topics back, one by one. *)
Lemma unjoin_joined t r :
  forallb (fun x => negb (mentions_separator x)) (t :: r) = true ->
  unjoin (joined (u8 ", ") (t :: r)) = t :: r.
Proof.
  revert t. induction r as [|t' r' IH]; intros t H.
  - cbn in H. rewrite andb_true_r in H. apply negb_true_iff in H.
    unfold unjoin, joined. cbn [map List.concat]. rewrite app_nil_r.
    now rewrite unjoin_from_last.
  - cbn [forallb] in H. apply andb_true_iff in H. destruct H as [H1 H2].
    apply negb_true_iff in H1. specialize (IH t' H2).
    unfold unjoin, joined in *. cbn [map List.concat].
    rewrite <- app_assoc.
    change (u8 ", " ++ t' ++ List.concat (map (fun x => u8 ", " ++ x) r'))
      with (44%N :: 32%N
              :: (t' ++ List.concat (map (fun x => u8 ", " ++ x) r'))).
    rewrite (unjoin_from_topic t [] _ H1). now rewrite IH.
Qed.

Lemma unknown_style_lookup s :
  ~ In s recognized_styles -> table_get s style_instructions = None.
Proof.
  intros H. unfold recognized_styles in H.
  cbn [map fst style_instructions] in H.
  unfold style_instructions. cbn [table_get].
  rewrite !pystr_eqb_neq; [reflexivity| | | |];
    intros ->; apply H; cbn [In]; tauto.
Qed.
(** ** Responses *)

Section Responses.
Context {env : Environment}.

(** Every rejection is a 400 that carries an error message. *)
Lemma rejection_is_400 c data :
  status (rejection c data) = 400
  /\ exists msg, msg <> []
       /\ body (rejection c data) = jsonify [(u8 "error", JStr msg)].
Proof.
  destruct c; simpl;
    try (split; [reflexivity|eexists; split; [|reflexivity]; discriminate]).
  destruct (duration_of data);
    (split; [reflexivity|eexists; split; [|reflexivity]; discriminate]).
Qed.

Lemma answer_status data :
  status (fst (answer data)) = 200 \/ status (fst (answer data)) = 500.
Proof.
  unfold answer. destruct (build_prompt _ _ _ _ _); simpl; auto.
Qed.

(** A request with usable text fields that passes every check is
    answered 200 or 500, never 400. *)
Lemma passed_status data t :
  text_fields_typed data = true -> first_failing data = None ->
  exists r t',
    generate (Ok data) t = (Return r, t')
    /\ (status r = 200 \/ status r = 500).
Proof.
  intros Ht Hf. rewrite generate_refines, (verdict_logged _ Ht Hf).
  destruct (log_error data).
  - do 2 eexists. split; [reflexivity|]. right. reflexivity.
  - do 2 eexists. split; [reflexivity|]. apply answer_status.
Qed.

(** An accepted request whose topics are all strings gets the envelope. *)
Lemma accepted_envelope data t :
  text_fields_typed data = true -> first_failing data = None ->
  printable data = true ->
  all_strings (topics_of data) = true ->
  exists prompt t',
    build_prompt (trimmed data "subject") (trimmed data "level")
      (trimmed data "learning_style") (topics_of data) (duration_of data)
    = Ok prompt
    /\ generate (Ok data) t
       = (Return (envelope (lesson_for (model_of data) prompt)
                    (trimmed data "subject") (trimmed data "level")
                    (trimmed data "learning_style") (topics_of data)
                    (duration_of data)), t').
Proof.
  intros Ht Hf Hpr Hs.
  destruct (build_prompt_strings (trimmed data "subject")
              (trimmed data "level") (trimmed data "learning_style") _
              (duration_of data) Hs) as [prompt Hp].
  exists prompt. eexists. split; [exact Hp|].
  rewrite generate_refines, (verdict_accepted _ Ht Hf Hpr). unfold answer.
  rewrite Hp. reflexivity.
Qed.

End Responses.

(** ** Runs of the handler *)

Section Runs.
Context {env : Environment}.

(** The run of an accepted request whose topics are all strings: the
    envelope, after one call of [generate_lesson] and one chat request. *)
Lemma accepted_run data t :
  text_fields_typed data = true -> first_failing data = None ->
  printable data = true ->
  all_strings (topics_of data) = true ->
  exists prompt,
    build_prompt (trimmed data "subject") (trimmed data "level")
      (trimmed data "learning_style") (topics_of data) (duration_of data)
    = Ok prompt
    /\ generate (Ok data) t
       = (Return (envelope (lesson_for (model_of data) prompt)
                    (trimmed data "subject") (trimmed data "level")
                    (trimmed data "learning_style") (topics_of data)
                    (duration_of data)),
          t ++ [ CallGenerateLesson (trimmed data "subject")
                   (trimmed data "level") (trimmed data "learning_style")
                   (topics_of data) (duration_of data) (model_of data);
                 CallChat (if truthy (model_of data) then model_of data
                           else JStr DEFAULT_MODEL) prompt ]).
Proof.
  intros Ht Hf Hpr Hs.
  destruct (build_prompt_strings (trimmed data "subject")
              (trimmed data "level") (trimmed data "learning_style") _
              (duration_of data) Hs) as [prompt Hp].
  exists prompt. split; [exact Hp|].
  rewrite generate_refines, (verdict_accepted _ Ht Hf Hpr). unfold answer.
  rewrite Hp. reflexivity.
Qed.

Lemma app_self_nil {A : Type} (l evs : list A) : l = l ++ evs -> evs = [].
Proof.
  intros H. rewrite <- (app_nil_r l) in H at 1.
  apply app_inv_head in H. now symmetry.
Qed.

(** The events a run of the handler adds to the trace. *)
Lemma generate_events data t r evs :
  generate (Ok data) t = (Return r, t ++ evs) ->
  match verdict_of data with
  | Rejected c => r = rejection c data /\ evs = []
  | Crashed e => r = server_error e /\ evs = []
  | Accepted => r = fst (answer data) /\ evs = snd (answer data)
  end.
Proof.
  rewrite generate_refines.
  destruct (verdict_of data); intros H; injection H as <- H.
  - split; [reflexivity|]. now apply app_self_nil in H.
  - split; [reflexivity|]. now apply app_self_nil in H.
  - split; [reflexivity|]. now apply app_inv_head in H.
Qed.

(** Only the style check answers with the style message. *)
Lemma rejection_style c data :
  rejection c data = bad_request "Le style d'apprentissage est requis" ->
  c = StyleGiven.
Proof.
  destruct c; cbn [rejection]; try reflexivity;
    try destruct (duration_of data);
    intros H; vm_compute in H; discriminate H.
Qed.

End Runs.

(** * The claims *)

Section Claims.
Context {env : Environment}.

(** C1 (amended).  When the parsed body is empty, or is an object whose
    [subject], [level] and [learning_style] are each missing or a string,
    the handler answers with the rejection of the first check that fails
    in the order body, subject, level, learning_style, topics, duration:
    status 400, an [error] message that is not empty, and no call made;
    when no check fails the status is not 400.  The one request left
    out is the one that passes the five earlier checks and whose
    duration is an infinite float. *)
Theorem validation_order data t :
  text_fields_typed data = true ->
  (first_failing data = Some DurationValid -> duration_finite data = true) ->
  match first_failing data with
  | Some c =>
      generate (Ok data) t = (Return (rejection c data), t)
      /\ status (rejection c data) = 400
      /\ exists msg, msg <> []
           /\ body (rejection c data) = jsonify [(u8 "error", JStr msg)]
  | None =>
      exists r t', generate (Ok data) t = (Return r, t') /\ status r <> 400
  end.
Proof.
  intros Ht Hd. destruct (first_failing data) as [c|] eqn:Hf.
  - rewrite generate_refines, (verdict_rejected _ c Ht); auto.
    + split; [reflexivity|]. apply rejection_is_400.
    + intros ->. now apply Hd.
  - destruct (passed_status data t Ht Hf) as (r & t' & Hg & S).
    exists r, t'. split; [exact Hg|].
    destruct S as [-> | ->]; discriminate.
Qed.

(** C2.  A request that passes the five earlier checks and whose duration
    is the float infinity (the JSON number [1e999]) fails the duration
    check, yet the handler answers 500: [int()] raises [OverflowError],
    which the clause [except (TypeError, ValueError)] does not catch. *)
Theorem infinite_duration_escapes_the_check t :
  let data := Requests.history (JList [JStr (u8 "Rome")]) (JFloat (FInf false)) in
  let e := mkExc OverflowError (u8 "cannot convert float infinity to integer") in
  first_failing data = Some DurationValid
  /\ generate (Ok data) t = (Return (server_error e), t)
  /\ status (server_error e) = 500.
Proof.
  split; [reflexivity|]. split; [|reflexivity].
  rewrite generate_refines. reflexivity.
Qed.

(** C3.  When the prompt renders and the chat request fails with any
    exception [e], [generate_lesson] returns the text ["Erreur API: "]
    followed by [str(e)]; the handler, for a request it lets through to
    the generation call, wraps that text as the lesson of a 200 response;
    and whenever a run of the handler has made a chat request that
    failed, its response is a 200 whose lesson is that text. *)
Theorem provider_failure_is_returned_as_text subject level learning_style
    topics duration model_name prompt e t :
  build_prompt subject level learning_style topics duration = Ok prompt ->
  ollama_chat (if truthy model_name then model_name else JStr DEFAULT_MODEL)
    prompt = Err e ->
  let lesson := JStr (u8 "Erreur API: " ++ exc_str e) in
  let calls :=
    [ CallGenerateLesson subject level learning_style topics duration
        model_name;
      CallChat (if truthy model_name then model_name else JStr DEFAULT_MODEL)
        prompt ] in
  generate_lesson subject level learning_style topics duration model_name t
  = (Return lesson, t ++ calls)
  /\ (forall data,
       text_fields_typed data = true -> first_failing data = None ->
       printable data = true ->
       trimmed data "subject" = subject -> trimmed data "level" = level ->
       trimmed data "learning_style" = learning_style ->
       topics_of data = topics -> duration_of data = duration ->
       model_of data = model_name ->
       generate (Ok data) t
       = (Return (envelope lesson subject level learning_style topics duration),
          t ++ calls)
       /\ status (envelope lesson subject level learning_style topics duration)
          = 200)
  /\ (forall data r evs model sent e',
        generate (Ok data) t = (Return r, t ++ evs) ->
        In (CallChat model sent) evs -> ollama_chat model sent = Err e' ->
        status r = 200
        /\ field (body r) "lesson"
           = Some (JStr (u8 "Erreur API: " ++ exc_str e'))).
Proof.
  intros Hp Hc lesson calls. split; [|split].
  - unfold generate_lesson, try_except, bind, eval, emit, py_return.
    cbv zeta. rewrite Hp, Hc. rewrite <- app_assoc. reflexivity.
  - intros data Ht Hf Hpr <- <- <- <- <- <-. split; [|reflexivity].
    rewrite generate_refines, (verdict_accepted _ Ht Hf Hpr). unfold answer.
    rewrite Hp. cbn [fst snd]. unfold lesson_for. rewrite Hc. reflexivity.
  - intros data r evs model sent e' Hg Hin He.
    apply generate_events in Hg.
    destruct (verdict_of data); destruct Hg as [-> ->];
      try contradiction Hin.
    unfold answer in Hin |- *.
    destruct (build_prompt (trimmed data "subject") _ _ _ _) as [p|];
      cbn [fst snd In] in Hin |- *.
    + destruct Hin as [Hin|[Hin|[]]]; [discriminate Hin|].
      injection Hin as Hm <-. unfold lesson_for. rewrite Hm, He.
      split; reflexivity.
    + destruct Hin as [Hin|[]]. discriminate Hin.
Qed.

(** C4 (amended).  A request that fails any validation check is answered
    without any call to [generate_lesson] or to the chat service: with
    status 400 when its text fields are usable, unless it is the duration
    check that fails first on an infinite float; with status 500 when a
    text field has the wrong type or the body is not an object.
    Conversely a call is made only for a request that passes every check,
    and a 400 response means no call was made. *)
Theorem failing_requests_never_reach_pipeline data t :
  (forall c, passes c data = false ->
     exists r, generate (Ok data) t = (Return r, t)
       /\ (text_fields_typed data = true ->
           (first_failing data = Some DurationValid ->
            duration_finite data = true) ->
           status r = 400)
       /\ (text_fields_typed data = false -> status r = 500))
  /\ (forall r t', generate (Ok data) t = (Return r, t') -> t' <> t ->
      forall c, passes c data = true)
  /\ (forall r t', generate (Ok data) t = (Return r, t') -> status r = 400 ->
      t' = t).
Proof.
  rewrite generate_refines. repeat split.
  - intros c Hc. destruct (first_failing_some _ _ Hc) as [c' Hf].
    destruct (text_fields_typed data) eqn:Ht.
    + destruct (verdict_of data) as [c''|e|] eqn:Hv.
      * eexists; split; [reflexivity|]. split; [|discriminate].
        intros _ _. apply rejection_is_400.
      * eexists; split; [reflexivity|]. split; [|discriminate].
        intros _ Hd. rewrite (verdict_rejected _ c' Ht) in Hv;
          [discriminate Hv| |exact Hf].
        intros ->. now apply Hd.
      * apply verdict_accepted_inv in Hv. destruct Hv as (_ & Hv & _).
        congruence.
    + destruct (verdict_untyped _ Ht) as [e [-> _]].
      eexists; split; [reflexivity|]. split; [discriminate|reflexivity].
  - intros r t' H Hne. destruct (verdict_of data) eqn:Hv;
      try (injection H as _ <-; contradiction).
    apply verdict_accepted_inv in Hv. now apply first_failing_none.
  - intros r t' H Hs. destruct (verdict_of data) eqn:Hv;
      try (injection H as _ <-; reflexivity).
    injection H as <- _.
    destruct (answer_status data) as [E|E]; rewrite E in Hs; discriminate.
Qed.

(** C5 (amended).  A request that passes every check, whose topics are
    all strings and whose subject, level and learning style hold no lone
    surrogate is answered with status 200 and the envelope
    [{success, lesson, subject, level, learning_style, topics, duration}]
    in which [topics] is the list received, [subject], [level] and
    [learning_style] are the received strings with surrounding whitespace
    removed, [duration] is [int(duration)] (null when the duration is
    missing or null), and [lesson] is what the pipeline returned. *)
Theorem success_envelope data t :
  text_fields_typed data = true -> first_failing data = None ->
  printable data = true ->
  all_strings (topics_of data) = true ->
  let subject := trimmed data "subject" in
  let level := trimmed data "level" in
  let learning_style := trimmed data "learning_style" in
  exists prompt t',
    build_prompt subject level learning_style (topics_of data)
      (duration_of data) = Ok prompt
    /\ generate (Ok data) t
       = (Return (envelope (lesson_for (model_of data) prompt) subject level
                    learning_style (topics_of data) (duration_of data)), t')
    /\ status (envelope (lesson_for (model_of data) prompt) subject level
                 learning_style (topics_of data) (duration_of data)) = 200
    /\ field data "topics" = Some (JList (topics_of data))
    /\ (exists s, field data "subject" = Some (JStr s) /\ subject = strip s)
    /\ (exists s, field data "level" = Some (JStr s) /\ level = strip s)
    /\ (exists s, field data "learning_style" = Some (JStr s)
                  /\ learning_style = strip s)
    /\ match field data "duration" with
       | None | Some JNull => duration_of data = None
       | Some v => exists d, py_int v = Ok d /\ 15 <= d <= 180
                             /\ duration_of data = Some d
       end.
Proof.
  intros Ht Hf Hpr Hs subject level learning_style.
  destruct (accepted_envelope data t Ht Hf Hpr Hs) as (prompt & t' & Hp & Hg).
  exists prompt, t'. split; [exact Hp|]. split; [exact Hg|].
  split; [reflexivity|].
  rewrite first_failing_none in Hf.
  pose proof (Hf SubjectGiven) as H1. pose proof (Hf LevelGiven) as H2.
  pose proof (Hf StyleGiven) as H3. pose proof (Hf TopicsGiven) as H4.
  pose proof (Hf DurationValid) as H5.
  unfold passes in H1, H2, H3, H4, H5.
  unfold subject, level, learning_style, trimmed, topics_of, duration_of in *.
  repeat split.
  - destruct (field data "topics") as [[]|]; try discriminate H4. reflexivity.
  - destruct (field data "subject") as [[]|]; try discriminate H1. eauto.
  - destruct (field data "level") as [[]|]; try discriminate H2. eauto.
  - destruct (field data "learning_style") as [[]|]; try discriminate H3.
    eauto.
  - destruct (field data "duration") as [v|]; [|reflexivity].
    destruct v; try reflexivity;
      (destruct (py_int _) as [d|]; [|discriminate H5];
       exists d; rewrite <- in_range_bounds; auto).
Qed.

(** C7.  For a learning style that is none of the four keys of the style
    table, the instruction block is the one of the visual style and
    [build_prompt] renders the template with it.  At the handler, a
    request whose [learning_style] is such a string, not blank, is never
    answered with the rejection of the style check; and when it passes
    the other checks, with topics that are strings and text fields that
    can be logged, it is answered 200 and the prompt sent to the chat
    service is the template rendered with the visual instruction. *)
Theorem unknown_style_falls_back_to_visual s :
  ~ In s recognized_styles ->
  style_instruction s = visual_instruction
  /\ style_instruction (u8 "Visuel") = visual_instruction
  /\ (forall subject level topics duration,
        build_prompt subject level s topics duration
        = match topics_text topics with
          | Ok txt =>
              Ok (render subject level s txt (duration_text duration)
                    visual_instruction)
          | Err e => Err e
          end)
  /\ (forall data raw t,
        field data "learning_style" = Some (JStr raw) ->
        strip raw = s -> s <> [] ->
        (forall r t', generate (Ok data) t = (Return r, t') ->
           r <> bad_request "Le style d'apprentissage est requis")
        /\ (text_fields_typed data = true ->
            (forall c, c <> StyleGiven -> passes c data = true) ->
            printable data = true -> all_strings (topics_of data) = true ->
            exists txt,
              topics_text (topics_of data) = Ok txt
              /\ let prompt :=
                   render (trimmed data "subject") (trimmed data "level") s
                     txt (duration_text (duration_of data))
                     visual_instruction in
                 generate (Ok data) t
                 = (Return
                      (envelope (lesson_for (model_of data) prompt)
                         (trimmed data "subject") (trimmed data "level") s
                         (topics_of data) (duration_of data)),
                    t ++ [ CallGenerateLesson (trimmed data "subject")
                             (trimmed data "level") s (topics_of data)
                             (duration_of data) (model_of data);
                           CallChat
                             (if truthy (model_of data) then model_of data
                              else JStr DEFAULT_MODEL) prompt ]))).
Proof.
  intros Hs.
  assert (style_instruction s = visual_instruction) as E.
  { unfold style_instruction. rewrite (unknown_style_lookup s Hs).
    vm_compute. reflexivity. }
  split; [exact E|]. split; [vm_compute; reflexivity|]. split.
  - intros subject level topics duration. unfold build_prompt.
    now rewrite E.
  - intros data raw t Hf Hr Hne.
    assert (trimmed data "learning_style" = s) as Tr
      by (unfold trimmed; now rewrite Hf).
    assert (passes StyleGiven data = true) as Hp.
    { cbn [passes]. rewrite Tr. destruct s; [contradiction|reflexivity]. }
    split.
    + intros r t'. rewrite generate_refines.
      destruct (verdict_of data) as [c|e|] eqn:V; intros H;
        injection H as <- _.
      * intros R. apply rejection_style in R. subst c.
        apply verdict_rejected_inv, first_failing_fails in V. congruence.
      * intros R. apply (f_equal status) in R. discriminate R.
      * intros R. apply (f_equal status) in R.
        destruct (answer_status data) as [S|S]; rewrite S in R;
          discriminate R.
    + intros Ht Hc Hpr Ha.
      assert (first_failing data = None) as Hff.
      { apply first_failing_none. intros c.
        destruct c; try (apply Hc; discriminate). exact Hp. }
      destruct (accepted_run data t Ht Hff Hpr Ha) as (prompt & Hb & Hg).
      rewrite Tr in Hb, Hg. unfold build_prompt in Hb.
      destruct (topics_text (topics_of data)) as [txt|]; [|discriminate Hb].
      exists txt. split; [reflexivity|]. cbv zeta.
      rewrite E in Hb. injection Hb as <-. exact Hg.
Qed.

(** C8.  For every list of topic strings the topics text is the topics
    with [", "] between each two neighbours (["général"] for the empty
    list), the prompt carries it between ["Thèmes à couvrir: "] and the
    full stop, and splitting that text at [", "] gives the list back
    element by element, in the same order and with its repetitions,
    whenever no topic itself contains [", "]. *)
Theorem topics_are_joined_in_order subject level learning_style duration
    (ts : list pystr) :
  let text := match ts with
              | [] => u8 "général"
              | _ :: _ => joined (u8 ", ") ts
              end in
  topics_text (map JStr ts) = Ok text
  /\ build_prompt subject level learning_style (map JStr ts) duration
     = Ok (render subject level learning_style text (duration_text duration)
             (style_instruction learning_style))
  /\ (exists before after,
        render subject level learning_style text (duration_text duration)
          (style_instruction learning_style)
        = before ++ u8 "Thèmes à couvrir: " ++ text ++ u8 "." ++ after)
  /\ (ts <> [] ->
      forallb (fun t => negb (mentions_separator t)) ts = true ->
      unjoin text = ts).
Proof.
  intros text.
  assert (topics_text (map JStr ts) = Ok text) as E.
  { destruct ts as [|t r]; [reflexivity|]. apply join_texts. }
  split; [exact E|]. split; [unfold build_prompt; now rewrite E|]. split.
  - unfold render.
    exists (u8 "Vous êtes un tuteur éducatif expert, spécialisé dans l'enseignement personnalisé. "
            ++ u8 "Créez une leçon détaillée et engageante pour un élève de niveau "
            ++ level ++ u8 " en " ++ subject ++ u8 ". ").
    eexists. rewrite <- !app_assoc. reflexivity.
  - intros Hne H. destruct ts as [|t r]; [contradiction|].
    now apply unjoin_joined.
Qed.

(** C9 (amended).  When the body is an object in which [subject],
    [level] or [learning_style] is present but is not a string, the
    handler answers 500 with the [AttributeError] caught by the generic
    handler; and when the request passes the six checks but one of its
    topics is not a string, it answers 500 as well: with the [TypeError]
    raised by the join, or, when a text field holds a lone surrogate,
    with the [UnicodeEncodeError] raised by the log line before the
    join. *)
Theorem type_errors_give_500 data t :
  (exists items, data = JDict items) ->
  text_fields_typed data = false
  \/ (text_fields_typed data = true /\ first_failing data = None
      /\ all_strings (topics_of data) = false) ->
  exists e t',
    generate (Ok data) t = (Return (server_error e), t')
    /\ status (server_error e) = 500
    /\ (exc_cls e = AttributeError \/ exc_cls e = TypeError
        \/ exc_cls e = UnicodeEncodeError)
    /\ (text_fields_typed data = false -> exc_cls e = AttributeError)
    /\ (text_fields_typed data = true -> printable data = true ->
        exc_cls e = TypeError)
    /\ (text_fields_typed data = true -> printable data = false ->
        exc_cls e = UnicodeEncodeError).
Proof.
  intros _ [Ht | (Ht & Hf & Hs)]; rewrite generate_refines.
  - destruct (verdict_untyped _ Ht) as [e [-> C]].
    exists e, t. rewrite Ht. repeat split; auto; discriminate.
  - destruct (printable data) eqn:Hpr.
    + rewrite (verdict_accepted _ Ht Hf Hpr). unfold answer.
      destruct (build_prompt_non_string (trimmed data "subject")
                  (trimmed data "level") (trimmed data "learning_style")
                  _ (duration_of data) Hs) as [e [-> C]].
      cbn [fst snd]. do 2 eexists. split; [reflexivity|].
      rewrite Ht. repeat split; auto; discriminate.
    + destruct (verdict_unprintable _ Ht Hf Hpr) as [e [-> C]].
      exists e, t. rewrite Ht. repeat split; auto; discriminate.
Qed.

(** C10.  When [int()] reads the duration of a request as [d] with
    15 <= d <= 180, and the request passes the other checks with topics
    that are all strings and text fields that can be logged, the request
    is answered with status 200 and the [duration] of the response is
    the integer [d], whatever the value supplied was (a float with a
    fractional part, a numeral in a string). *)
Theorem duration_is_truncated data v d t :
  text_fields_typed data = true ->
  (forall c, c <> DurationValid -> passes c data = true) ->
  printable data = true ->
  all_strings (topics_of data) = true ->
  field data "duration" = Some v -> py_int v = Ok d -> 15 <= d <= 180 ->
  exists lesson t',
    generate (Ok data) t
    = (Return (envelope lesson (trimmed data "subject") (trimmed data "level")
                 (trimmed data "learning_style") (topics_of data) (Some d)),
       t')
    /\ status (envelope lesson (trimmed data "subject") (trimmed data "level")
                 (trimmed data "learning_style") (topics_of data) (Some d))
       = 200
    /\ field (body (envelope lesson (trimmed data "subject")
                      (trimmed data "level") (trimmed data "learning_style")
                      (topics_of data) (Some d))) "duration"
       = Some (JInt d).
Proof.
  intros Ht Hc Hpr Hs Hv Hi Hd.
  assert (passes DurationValid data = true) as Hp.
  { unfold passes. rewrite Hv.
    destruct v; try (simpl in Hi; discriminate Hi);
      rewrite Hi; now apply in_range_bounds. }
  assert (first_failing data = None) as Hf.
  { apply first_failing_none. intros c.
    destruct c; try (apply Hc; discriminate). exact Hp. }
  assert (duration_of data = Some d) as Hdur.
  { unfold duration_of. rewrite Hv.
    destruct v; try (simpl in Hi; discriminate Hi); now rewrite Hi. }
  destruct (accepted_envelope data t Ht Hf Hpr Hs) as (prompt & t' & _ & E).
  rewrite Hdur in E. exists (lesson_for (model_of data) prompt), t'.
  split; [exact E|]. split; reflexivity.
Qed.

End Claims.

(** * The claims on concrete requests *)

Import Sample Requests.

(** A blank subject is rejected first even when the duration is
    infinite; an out-of-range duration is rejected by the last check. *)
Lemma validation_order_witness :
  (text_fields_typed blank_subject_infinite_duration = true
   /\ duration_finite blank_subject_infinite_duration = false
   /\ first_failing (env := offline) blank_subject_infinite_duration
      = Some SubjectGiven
   /\ generate (env := offline) (Ok blank_subject_infinite_duration) []
      = (Return (bad_request "Le sujet est requis"), []))
  /\ (let data := history (JList [JStr (u8 "Rome")]) (JInt 200) in
      text_fields_typed data = true
      /\ first_failing (env := offline) data = Some DurationValid
      /\ duration_finite data = true
      /\ generate (env := offline) (Ok data) []
         = (Return (bad_request "La durée doit être entre 15 et 180 minutes"),
            [])).
Proof.
  split.
  - split; [vm_compute; reflexivity|]. split; [vm_compute; reflexivity|].
    split; [vm_compute; reflexivity|].
    exact (proj1 (validation_order (env := offline)
                    blank_subject_infinite_duration []
                    ltac:(vm_compute; reflexivity)
                    ltac:(vm_compute; discriminate))).
  - intros data.
    split; [vm_compute; reflexivity|]. split; [vm_compute; reflexivity|].
    split; [vm_compute; reflexivity|].
    exact (proj1 (validation_order (env := offline) data []
                    ltac:(vm_compute; reflexivity)
                    ltac:(vm_compute; reflexivity))).
Defined.

(** C1 as stated fails here: the subject check fails, the level is a
    number, and the answer is 500. *)
Lemma validation_order_counterexample :
  first_failing (env := offline) blank_subject_numeric_level
  = Some SubjectGiven
  /\ generate (env := offline) (Ok blank_subject_numeric_level) []
     = (Return (server_error (no_attribute (JInt 5) "strip")), [])
  /\ status (server_error (no_attribute (JInt 5) "strip")) = 500.
Proof.
  split; [vm_compute; reflexivity|]. split; [|reflexivity].
  rewrite generate_refines. vm_compute. reflexivity.
Qed.

Lemma provider_failure_witness :
  let e := mkExc OtherError (u8 "Failed to connect to Ollama") in
  let lesson := JStr (u8 "Erreur API: " ++ exc_str e) in
  build_prompt (u8 "Mathématiques") (u8 "Lycée") (u8 "Visuel")
    [JStr (u8 "Algèbre")] (Some 60) = Ok example_prompt
  /\ ollama_chat (Environment := offline) (JStr DEFAULT_MODEL) example_prompt
     = Err e
  /\ generate (env := offline) (Ok example_request) []
     = (Return (envelope lesson (u8 "Mathématiques") (u8 "Lycée")
                  (u8 "Visuel") [JStr (u8 "Algèbre")] (Some 60)),
        [ CallGenerateLesson (u8 "Mathématiques") (u8 "Lycée") (u8 "Visuel")
            [JStr (u8 "Algèbre")] (Some 60) (JStr DEFAULT_MODEL);
          CallChat (JStr DEFAULT_MODEL) example_prompt ]).
Proof.
  intros e lesson.
  split; [vm_compute; reflexivity|]. split; [reflexivity|].
  exact (proj1 (proj1 (proj2 (provider_failure_is_returned_as_text
           (env := offline)
           (u8 "Mathématiques") (u8 "Lycée") (u8 "Visuel")
           [JStr (u8 "Algèbre")] (Some 60) (JStr DEFAULT_MODEL)
           example_prompt e []
           ltac:(vm_compute; reflexivity) ltac:(vm_compute; reflexivity)))
         example_request
           ltac:(vm_compute; reflexivity) ltac:(vm_compute; reflexivity)
           ltac:(vm_compute; reflexivity) ltac:(vm_compute; reflexivity)
           ltac:(vm_compute; reflexivity) ltac:(vm_compute; reflexivity)
           ltac:(vm_compute; reflexivity) ltac:(vm_compute; reflexivity)
           ltac:(vm_compute; reflexivity))).
Defined.

(** C4 as stated fails here: the topics check fails, the style is a
    number, and the answer is 500; no call is made. *)
Lemma failing_request_counterexample :
  passes (env := offline) TopicsGiven no_topics_numeric_style = false
  /\ generate (env := offline) (Ok no_topics_numeric_style) []
     = (Return (server_error (no_attribute (JInt 7) "strip")), [])
  /\ status (server_error (no_attribute (JInt 7) "strip")) = 500.
Proof.
  split; [vm_compute; reflexivity|]. split; [|reflexivity].
  rewrite generate_refines. vm_compute. reflexivity.
Qed.

(** The example of the specification: every field is echoed as sent. *)
Lemma success_envelope_witness :
  text_fields_typed example_request = true
  /\ first_failing (env := offline) example_request = None
  /\ printable example_request = true
  /\ all_strings (topics_of example_request) = true
  /\ exists r t',
       generate (env := offline) (Ok example_request) [] = (Return r, t')
       /\ status r = 200
       /\ field (body r) "subject" = field example_request "subject"
       /\ field (body r) "level" = field example_request "level"
       /\ field (body r) "learning_style"
          = field example_request "learning_style"
       /\ field (body r) "topics" = field example_request "topics"
       /\ field (body r) "duration" = field example_request "duration".
Proof.
  split; [vm_compute; reflexivity|]. split; [vm_compute; reflexivity|].
  split; [vm_compute; reflexivity|]. split; [vm_compute; reflexivity|].
  destruct (success_envelope (env := offline) example_request []
              ltac:(vm_compute; reflexivity) ltac:(vm_compute; reflexivity)
              ltac:(vm_compute; reflexivity) ltac:(vm_compute; reflexivity))
    as (prompt & t' & _ & Hg & Hs & _).
  eexists. exists t'. split; [exact Hg|]. split; [exact Hs|].
  repeat split; vm_compute; reflexivity.
Defined.

(** C5 as stated fails here: the subject comes back without the spaces
    that surrounded it; on the specification's example the lesson is the
    empty string when that is what the provider answers; and the example
    with a subject that ends in a lone surrogate passes every check and
    is answered 500, the log line having raised before any call. *)
Lemma success_envelope_counterexample :
  (exists r t',
     generate (env := offline) (Ok padded_subject) [] = (Return r, t')
     /\ status r = 200
     /\ field padded_subject "subject" = Some (JStr (u8 " Mathématiques "))
     /\ field (body r) "subject" = Some (JStr (u8 "Mathématiques"))
     /\ field (body r) "subject" <> field padded_subject "subject")
  /\ (exists r t',
        generate (env := canned []) (Ok example_request) [] = (Return r, t')
        /\ status r = 200
        /\ field (body r) "lesson" = Some (JStr []))
  /\ (text_fields_typed surrogate_subject = true
      /\ first_failing (env := offline) surrogate_subject = None
      /\ all_strings (topics_of surrogate_subject) = true
      /\ generate (env := offline) (Ok surrogate_subject) []
         = (Return
              (server_error
                 (mkExc UnicodeEncodeError
                    (u8 "'utf-8' codec can't encode character '\ud83d' in position 30: surrogates not allowed"))),
            [])).
Proof.
  split; [|split].
  - do 2 eexists. split; [rewrite generate_refines; vm_compute; reflexivity|].
    split; [reflexivity|]. split; [vm_compute; reflexivity|].
    split; [vm_compute; reflexivity|]. vm_compute. discriminate.
  - do 2 eexists. split; [rewrite generate_refines; vm_compute; reflexivity|].
    split; [reflexivity|]. vm_compute. reflexivity.
  - split; [vm_compute; reflexivity|]. split; [vm_compute; reflexivity|].
    split; [vm_compute; reflexivity|].
    rewrite generate_refines. vm_compute. reflexivity.
Qed.

(** The style ["Musical"]: the request is answered 200 and the prompt
    sent carries the visual instruction. *)
Lemma unknown_style_witness :
  ~ In (u8 "Musical") recognized_styles
  /\ style_instruction (u8 "Musical") = visual_instruction
  /\ exists lesson,
       generate (env := offline) (Ok unknown_style) []
       = (Return (envelope lesson (u8 "Mathématiques") (u8 "Lycée")
                    (u8 "Musical") [JStr (u8 "Algèbre")] (Some 60)),
          [ CallGenerateLesson (u8 "Mathématiques") (u8 "Lycée")
              (u8 "Musical") [JStr (u8 "Algèbre")] (Some 60)
              (JStr DEFAULT_MODEL);
            CallChat (JStr DEFAULT_MODEL)
              (render (u8 "Mathématiques") (u8 "Lycée") (u8 "Musical")
                 (u8 "Algèbre") (duration_text (Some 60))
                 visual_instruction) ]).
Proof.
  assert (~ In (u8 "Musical") recognized_styles) as H.
  { vm_compute. intros [H|[H|[H|[H|[]]]]]; discriminate H. }
  destruct (unknown_style_falls_back_to_visual (env := offline)
              (u8 "Musical") H) as (A & _ & _ & B).
  destruct (B unknown_style (u8 "Musical") []
              ltac:(vm_compute; reflexivity) ltac:(vm_compute; reflexivity)
              ltac:(vm_compute; discriminate)) as (_ & S).
  destruct (S ltac:(vm_compute; reflexivity)
              ltac:(intros [] Hc;
                    solve [vm_compute; reflexivity | contradiction])
              ltac:(vm_compute; reflexivity) ltac:(vm_compute; reflexivity))
    as (txt & Htxt & Hg).
  split; [exact H|]. split; [exact A|].
  assert (Ok txt = Ok (u8 "Algèbre")) as E
    by (rewrite <- Htxt; vm_compute; reflexivity).
  injection E as ->. eexists. rewrite Hg.
  vm_compute. reflexivity.
Defined.

Lemma type_errors_witness :
  let data := history (JList [JStr (u8 "Rome"); JInt 1]) (JInt 60) in
  text_fields_typed data = true
  /\ first_failing (env := offline) data = None
  /\ all_strings (topics_of data) = false
  /\ printable data = true
  /\ exists e t',
       generate (env := offline) (Ok data) [] = (Return (server_error e), t')
       /\ status (server_error e) = 500
       /\ exc_cls e = TypeError.
Proof.
  intros data.
  split; [vm_compute; reflexivity|]. split; [vm_compute; reflexivity|].
  split; [vm_compute; reflexivity|]. split; [vm_compute; reflexivity|].
  destruct (type_errors_give_500 (env := offline) data []
              ltac:(eexists; reflexivity)
              ltac:(right; repeat split; vm_compute; reflexivity))
    as (e & t' & Hg & S & _ & _ & C & _).
  exists e, t'. split; [exact Hg|]. split; [exact S|].
  apply C; vm_compute; reflexivity.
Defined.

(** C9 as stated fails here: a topic is a number, the duration is out of
    range, and the answer is the 400 of the duration check. *)
Lemma type_errors_counterexample :
  let data := history (JList [JInt 1]) (JInt 200) in
  all_strings (topics_of data) = false
  /\ generate (env := offline) (Ok data) []
     = (Return (bad_request "La durée doit être entre 15 et 180 minutes"), [])
  /\ status (bad_request "La durée doit être entre 15 et 180 minutes") = 400.
Proof.
  intros data. split; [vm_compute; reflexivity|]. split; [|reflexivity].
  rewrite generate_refines. vm_compute. reflexivity.
Qed.

(** The float 180.9 and the string "60" are accepted and come back as
    the integers 180 and 60; so does sixty written in Arabic-Indic
    digits between two Unicode spaces. *)
Lemma duration_is_truncated_witness :
  (py_int (env := offline) (JFloat (FFinite 6364852910869709 (-45))) = Ok 180
   /\ exists lesson t',
        generate (env := offline) (Ok fractional_duration) []
        = (Return (envelope lesson (u8 "Mathématiques") (u8 "Lycée")
                     (u8 "Visuel") [JStr (u8 "Algèbre")] (Some 180)), t')
        /\ field (body (envelope lesson (u8 "Mathématiques") (u8 "Lycée")
                          (u8 "Visuel") [JStr (u8 "Algèbre")] (Some 180)))
             "duration" = Some (JInt 180))
  /\ (py_int (env := offline) (JStr (u8 "60")) = Ok 60
      /\ exists lesson t',
           generate (env := offline) (Ok textual_duration) []
           = (Return (envelope lesson (u8 "Mathématiques") (u8 "Lycée")
                        (u8 "Visuel") [JStr (u8 "Algèbre")] (Some 60)), t')
           /\ field (body (envelope lesson (u8 "Mathématiques") (u8 "Lycée")
                             (u8 "Visuel") [JStr (u8 "Algèbre")] (Some 60)))
                "duration" = Some (JInt 60))
  /\ (py_int (env := offline) (JStr ([160%N] ++ u8 "٦٠" ++ [8195%N])) = Ok 60
      /\ exists lesson t',
           generate (env := offline) (Ok arabic_duration) []
           = (Return (envelope lesson (u8 "Mathématiques") (u8 "Lycée")
                        (u8 "Visuel") [JStr (u8 "Algèbre")] (Some 60)), t')).
Proof.
  split; [|split]; (split; [vm_compute; reflexivity|]).
  - destruct (duration_is_truncated (env := offline) fractional_duration
                (JFloat (FFinite 6364852910869709 (-45))) 180 []
                ltac:(vm_compute; reflexivity)
                ltac:(intros [] H; solve [vm_compute; reflexivity | contradiction])
                ltac:(vm_compute; reflexivity) ltac:(vm_compute; reflexivity)
                ltac:(vm_compute; reflexivity) ltac:(vm_compute; reflexivity)
                ltac:(lia))
      as (lesson & t' & Hg & _ & Hd).
    exists lesson, t'. split; [exact Hg | exact Hd].
  - destruct (duration_is_truncated (env := offline) textual_duration
                (JStr (u8 "60")) 60 []
                ltac:(vm_compute; reflexivity)
                ltac:(intros [] H; solve [vm_compute; reflexivity | contradiction])
                ltac:(vm_compute; reflexivity) ltac:(vm_compute; reflexivity)
                ltac:(vm_compute; reflexivity) ltac:(vm_compute; reflexivity)
                ltac:(lia))
      as (lesson & t' & Hg & _ & Hd).
    exists lesson, t'. split; [exact Hg | exact Hd].
  - destruct (duration_is_truncated (env := offline) arabic_duration
                (JStr ([160%N] ++ u8 "٦٠" ++ [8195%N])) 60 []
                ltac:(vm_compute; reflexivity)
                ltac:(intros [] H; solve [vm_compute; reflexivity | contradiction])
                ltac:(vm_compute; reflexivity) ltac:(vm_compute; reflexivity)
                ltac:(vm_compute; reflexivity) ltac:(vm_compute; reflexivity)
                ltac:(lia))
      as (lesson & t' & Hg & _ & _).
    exists lesson, t'. exact Hg.
Defined.

(** Three topics, one of them twice, read back from the joined text. *)
Example repeated_topics_read_back :
  unjoin (joined (u8 ", ") [u8 "Rome"; u8 "Gaule"; u8 "Rome"])
  = [u8 "Rome"; u8 "Gaule"; u8 "Rome"].
Proof. vm_compute. reflexivity. Qed.

(** [int()] on a [str]: digits of any script and Unicode whitespace are
    read; a sign must touch the digits; the separators of ASCII that
    [strip] removes are not skipped; 4300 digits are read and 4301 are
    not. *)
Example int_of_str_samples :
  python_int_of_str (u8 " 60 ") = Some 60
  /\ python_int_of_str (u8 "-٦٠") = Some (-60)
  /\ python_int_of_str (u8 "６０") = Some 60
  /\ python_int_of_str (u8 "6٠") = Some 60
  /\ python_int_of_str (u8 "1_000") = Some 1000
  /\ python_int_of_str (u8 "+ 60") = None
  /\ python_int_of_str (u8 "1__0") = None
  /\ python_int_of_str (u8 "60.0") = None
  /\ python_int_of_str (28%N :: u8 "60") = None
  /\ python_int_of_str (133%N :: u8 "60") = Some 60
  /\ python_int_of_str (u8 "") = None
  /\ python_int_of_str (repeat 48%N 4300) = Some 0
  /\ python_int_of_str (repeat 48%N 4301) = None.
Proof.
  repeat (apply conj; [vm_compute; reflexivity|]). vm_compute. reflexivity.
Qed.

(** * Further properties of the handler and the pipeline *)

(** ** The handler with any lesson generator *)

(** From the logging [print] on, with any lesson generator. *)
Ltac logged_with Hh :=
  unfold py_print;
  destruct (utf8_encode_error _) as [e'|] eqn:E;
  [ outcomes; rewrite (Hh e' (proj2 (utf8_encode_error_some _ _ E)));
    reflexivity
  | cbv beta iota;
    match goal with
    | |- context [call ?c ?t] => destruct (call c t) as [[a|r0|e0] t0]
    end; reflexivity ].

Section Degraded.
Context {env : Environment}.

(** The pipeline phase, with the generic clause read as [handled]. *)
Lemma pipeline_phase_handled f dm data t :
  pipeline_phase f dm data t
  = try_except
      (lesson <- call (f (trimmed data "subject") (trimmed data "level")
                         (trimmed data "learning_style") (topics_of data)
                         (duration_of data)
                         match field data "model" with
                         | Some v => v
                         | None => JStr dm
                         end) ;;
       py_return (envelope lesson (trimmed data "subject")
                    (trimmed data "level") (trimmed data "learning_style")
                    (topics_of data) (duration_of data)))
      any_exception (fun e t' => (handled e, t')) t.
Proof.
  unfold pipeline_phase. cbv zeta. apply try_except_any.
  intros; apply except_clause.
Qed.

(** The validation phase does not depend on the lesson generator. *)
Lemma generate_with_refines f dm data t :
  generate_with f dm (Ok data) t =
  match verdict_of data with
  | Rejected c => (Return (rejection c data), t)
  | Crashed e => (Return (server_error e), t)
  | Accepted => pipeline_phase f dm data t
  end.
Proof.
  unfold generate_with.
  rewrite (try_except_any _ _ (fun e t' => (handled e, t')))
    by (intros; apply except_clause).
  replace (match verdict_of data with
           | Rejected c => (Return (rejection c data), t)
           | Crashed e => (Return (server_error e), t)
           | Accepted => pipeline_phase f dm data t
           end)
    with (match verdict_of data with
          | Rejected c => (Return (rejection c data), t)
          | Crashed e => (Return (server_error e), t)
          | Accepted =>
              try_except
                (lesson <- call (f (trimmed data "subject")
                                   (trimmed data "level")
                                   (trimmed data "learning_style")
                                   (topics_of data) (duration_of data)
                                   match field data "model" with
                                   | Some v => v
                                   | None => JStr dm
                                   end) ;;
                 py_return (envelope lesson (trimmed data "subject")
                              (trimmed data "level")
                              (trimmed data "learning_style")
                              (topics_of data) (duration_of data)))
                any_exception (fun e t' => (handled e, t')) t
          end)
    by (now rewrite pipeline_phase_handled).
  pose proof handled_plain as Hh. revert Hh. generalize handled as h.
  intros h Hh.
  destruct data as [| b | n | [| |m e] | s | l | items].
  all: try reflexivity.
  all: try (destruct b; [crashed Hh | reflexivity]).
  all: try (destruct s; [reflexivity | crashed Hh]).
  all: try (destruct l; [reflexivity | crashed Hh]).
  all: try crashed Hh.
  all: try (unfold verdict_of, truthy; destruct (_ =? 0) eqn:E;
            [ unfold try_except, bind, eval, when; simpl; rewrite E;
              reflexivity
            | cbv [negb]; unfold try_except, bind, eval, when; simpl;
                rewrite E; cbv [negb]; apply f_equal2; [|reflexivity];
                apply Hh; vm_compute; reflexivity ]).
  destruct items as [|it items']; [reflexivity|].
  set (items := it :: items').
  unfold verdict_of, first_error, first_failing, strip_error, duration_error,
    log_error, rejection, passes, trimmed, topics_of, duration_of,
    order, field.
  unfold try_except, bind, eval, when, method_get, method_strip.
  change (truthy (JDict items)) with true. cbv [negb].
  destruct (assoc_get (u8 "subject") items) as [[]|]; try crashed Hh.
  all: destruct (assoc_get (u8 "level") items) as [[]|]; try crashed Hh.
  all: destruct (assoc_get (u8 "learning_style") items) as [[]|];
    try crashed Hh.
  all: repeat match goal with
       | |- context [strip ?s] => is_var s; destruct (strip s); try reflexivity
       end.
  all: try reflexivity.
  all: destruct (assoc_get (u8 "topics") items) as [[| | | | |[|x r]|]|];
    try reflexivity.
  all: cbv [is_empty is_empty_list negb find].
  all: destruct (assoc_get (u8 "duration") items) as [[| | |[| |]| | |]|].
  all: cbv [ret py_return].
  all: try logged_with Hh.
  all: destruct (py_int _) as [d|err] eqn:P.
  all: try (destruct (type_or_value_error (exc_cls err));
            [ reflexivity
            | outcomes; rewrite (Hh err (py_int_error_plain _ _ P));
              reflexivity ]).
  all: unfold in_range; rewrite Z.gtb_ltb.
  all: destruct (Z.ltb_spec d 15), (Z.ltb_spec 180 d), (Z.leb_spec 15 d),
         (Z.leb_spec d 180); try lia; try reflexivity.
  all: cbv [orb andb]; logged_with Hh.
Qed.

End Degraded.

(** ** Whitespace *)

Lemma lstrip_idempotent s : lstrip (lstrip s) = lstrip s.
Proof.
  induction s as [|c r IH]; [reflexivity|].
  cbn [lstrip]. destruct (is_space c) eqn:E; [exact IH|].
  cbn [lstrip]. now rewrite E.
Qed.

Lemma lstrip_snoc l c :
  is_space c = false -> lstrip (l ++ [c]) = lstrip l ++ [c].
Proof.
  intros H. induction l as [|x r IH]; cbn [app lstrip].
  - now rewrite H.
  - destruct (is_space x); [exact IH|reflexivity].
Qed.

Lemma lstrip_length s : (List.length (lstrip s) <= List.length s)%nat.
Proof.
  induction s as [|c r IH]; [reflexivity|].
  cbn [lstrip]. destruct (is_space c); cbn [List.length]; lia.
Qed.

(** A text that [lstrip] leaves alone does not start with whitespace. *)
Lemma lstrip_fixed_head c r : lstrip (c :: r) = c :: r -> is_space c = false.
Proof.
  cbn [lstrip]. destruct (is_space c); [|reflexivity].
  intros H. pose proof (lstrip_length r) as L. rewrite H in L.
  cbn [List.length] in L. lia.
Qed.

Lemma lstrip_rstrip x : lstrip x = x -> lstrip (rstrip x) = rstrip x.
Proof.
  intros H. destruct x as [|c r]; [reflexivity|].
  pose proof (lstrip_fixed_head c r H) as Hc.
  unfold rstrip. cbn [rev]. rewrite (lstrip_snoc _ _ Hc), rev_app_distr.
  cbn [rev app lstrip]. now rewrite Hc.
Qed.

Lemma rstrip_idempotent s : rstrip (rstrip s) = rstrip s.
Proof.
  unfold rstrip. now rewrite rev_involutive, lstrip_idempotent.
Qed.

Lemma strip_idempotent s : strip (strip s) = strip s.
Proof.
  unfold strip.
  rewrite (lstrip_rstrip (lstrip s) (lstrip_idempotent s)).
  apply rstrip_idempotent.
Qed.

Lemma strip_fixed_ends s :
  strip s = s -> lstrip s = s /\ lstrip (rev s) = rev s.
Proof.
  intros H. split.
  - rewrite <- H at 1. unfold strip.
    rewrite (lstrip_rstrip (lstrip s) (lstrip_idempotent s)). exact H.
  - assert (rstrip s = s) as R.
    { rewrite <- H at 1. unfold strip. rewrite rstrip_idempotent. exact H. }
    unfold rstrip in R. rewrite <- R at 2. now rewrite rev_involutive.
Qed.

(** ** What a success envelope holds *)

Lemma envelope_fields lesson subject level learning_style topics duration :
  let b := body (envelope lesson subject level learning_style topics duration) in
  field b "success" = Some (JBool true)
  /\ field b "lesson" = Some lesson
  /\ field b "subject" = Some (JStr subject)
  /\ field b "level" = Some (JStr level)
  /\ field b "learning_style" = Some (JStr learning_style)
  /\ field b "topics" = Some (JList topics)
  /\ field b "duration" = Some (json_of_duration duration)
  /\ field b "model" = None.
Proof. repeat split; vm_compute; reflexivity. Qed.

(** ** Every request is answered *)

Section Outcomes.
Context {env : Environment}.

Lemma rejection_message c data :
  exists msg, In msg validation_messages /\ rejection c data = bad_request msg.
Proof.
  destruct c; cbn [rejection]; try (eexists; split; [|reflexivity]; cbn; tauto).
  destruct (duration_of data); (eexists; split; [|reflexivity]; cbn; tauto).
Qed.


(** X1.  A parsed body is always answered, whatever it holds: the
    handler returns a response whose status is 200, 400 or 500; no
    exception of the field accesses, of [int()], of the log line or of
    the join escapes the generic clause, the text of each being one that
    the clause can log; the calls made are added after those already
    recorded; at most one chat request is made, and one is made exactly
    when the status is 200.  When [request.get_json()] itself raises, the
    handler answers 500 with the text of the exception if that text can
    be written to standard output; if it cannot, the [print] of the
    generic clause raises [UnicodeEncodeError] and the view returns no
    response. *)
Theorem handler_always_responds req t :
  match req with
  | Ok data =>
      exists r calls,
        generate req t = (Return r, t ++ calls)
        /\ (status r = 200 \/ status r = 400 \/ status r = 500)
        /\ (List.length (chats calls) <= 1)%nat
        /\ (status r = 200 <-> List.length (chats calls) = 1%nat)
  | Err e =>
      if no_surrogate (exc_str e)
      then generate req t = (Return (server_error e), t)
      else exists e',
             generate req t = (Raise e', t)
             /\ exc_cls e' = UnicodeEncodeError
  end.
Proof.
  destruct req as [data|e].
  - rewrite generate_refines. destruct (verdict_of data) as [c|e|].
    + exists (rejection c data), []. rewrite app_nil_r.
      destruct (rejection_is_400 c data) as [S _]. rewrite S. cbn.
      repeat split; auto; try lia; discriminate.
    + exists (server_error e), []. rewrite app_nil_r. cbn.
      repeat split; auto; try lia; discriminate.
    + unfold answer. destruct (build_prompt _ _ _ _ _); cbn [fst snd].
      * eexists. eexists. split; [reflexivity|]. cbn.
        repeat split; auto; lia.
      * eexists. eexists. split; [reflexivity|]. cbn.
        repeat split; auto; try lia; discriminate.
  - rewrite generate_unparsed.
    destruct (no_surrogate (exc_str e)) eqn:P.
    + now rewrite (handled_plain _ P).
    + destruct (handled_surrogate _ P) as (e' & -> & C). eauto.
Qed.


Ltac error_shape :=
  do 2 eexists; (split; [reflexivity|]); right; left;
  (split; [reflexivity|]); eexists; reflexivity.

(** X3.  Unless [request.get_json()] raised an exception whose text
    cannot be written to standard output, the handler returns a response
    of one of three shapes: status 400 with the single key [error]
    holding one of the seven validation messages (and no [success] key);
    status 500 with [success] false and the exception text after a fixed
    prefix; status 200 with [success] true and the six other keys of the
    envelope. *)
Theorem response_shapes req t :
  parse_error_printable req = true ->
  exists r t',
    generate req t = (Return r, t')
    /\ ((status r = 400
         /\ field (body r) "success" = None
         /\ exists msg, In msg validation_messages
              /\ body r = jsonify [(u8 "error", JStr (u8 msg))])
        \/ (status r = 500
            /\ exists e,
                 body r
                 = jsonify [ (u8 "success", JBool false);
                             (u8 "error",
                              JStr (u8 "Erreur lors de la génération: "
                                      ++ exc_str e)) ])
        \/ (status r = 200
            /\ exists lesson subject level learning_style topics duration,
                 body r
                 = jsonify [ (u8 "success", JBool true);
                             (u8 "lesson", lesson);
                             (u8 "subject", JStr subject);
                             (u8 "level", JStr level);
                             (u8 "learning_style", JStr learning_style);
                             (u8 "topics", JList topics);
                             (u8 "duration", json_of_duration duration) ])).
Proof.
  intros Hreq. destruct req as [data|e];
    [|rewrite generate_unparsed, (handled_plain _ Hreq); error_shape].
  rewrite generate_refines. destruct (verdict_of data) as [c|e|].
  - destruct (rejection_message c data) as [msg [Hin ->]].
    do 2 eexists. split; [reflexivity|]. left.
    split; [reflexivity|]. split; [vm_compute; reflexivity|].
    exists msg. split; [exact Hin|reflexivity].
  - error_shape.
  - unfold answer. destruct (build_prompt _ _ _ _ _); cbn [fst snd].
    + do 2 eexists. split; [reflexivity|]. right. right.
      split; [reflexivity|]. do 6 eexists. reflexivity.
    + error_shape.
Qed.

(** X4.  A body that is not a JSON object is answered 400 with "Aucune
    donnée fournie" when it is null, false, zero, the empty string or the
    empty array, and 500 with the text of the [AttributeError] on [get]
    otherwise; the empty object is answered like null; and an exception
    raised by [request.get_json()] itself is answered 500 with its
    text, provided that text can be written to standard output. *)
Theorem bodies_that_are_not_requests data t :
  data = JDict [] \/ (forall items, data <> JDict items) ->
  generate (Ok data) t
  = (Return (if truthy data
             then server_error (no_attribute data "get")
             else bad_request "Aucune donnée fournie"), t)
  /\ forall e, no_surrogate (exc_str e) = true ->
       generate (Err e) t = (Return (server_error e), t).
Proof.
  intros H. split;
    [|intros e P; now rewrite generate_unparsed, (handled_plain _ P)].
  rewrite generate_refines. unfold verdict_of.
  destruct (truthy data) eqn:Tr; cbn [negb]; [|reflexivity].
  destruct data as [| | | | | |items]; try reflexivity.
  destruct H as [H|H]; [rewrite H in Tr; discriminate Tr|].
  exfalso. now apply (H items).
Qed.

End Outcomes.

Lemma bodies_that_are_not_requests_witness :
  (forall items, JList [JInt 1] <> JDict items)
  /\ generate (env := offline) (Ok (JList [JInt 1])) []
     = (Return (server_error (no_attribute (JList [JInt 1]) "get")), [])
  /\ generate (env := offline) (Ok (JDict [])) []
     = (Return (bad_request "Aucune donnée fournie"), []).
Proof.
  split; [discriminate|]. split.
  - refine (proj1 (bodies_that_are_not_requests (env := offline)
                     (JList [JInt 1]) [] _)).
    right. discriminate.
  - exact (proj1 (bodies_that_are_not_requests (env := offline)
                    (JDict []) [] (or_introl eq_refl))).
Defined.

(** ** Requests that reach the duration check, and accepted requests *)

Section Accepted.
Context {env : Environment}.

Lemma five_checks data :
  (forall c, c <> DurationValid -> passes c data = true) ->
  first_failing data
  = if passes DurationValid data then None else Some DurationValid.
Proof.
  intros H. unfold first_failing, order. cbn [find].
  rewrite !H by discriminate. cbn [negb].
  destruct (passes DurationValid data); reflexivity.
Qed.

(** What a 200 response says about the request it answers. *)
Lemma status_200_inv data t r t' :
  generate (Ok data) t = (Return r, t') -> status r = 200 ->
  text_fields_typed data = true /\ first_failing data = None
  /\ all_strings (topics_of data) = true
  /\ exists prompt,
       build_prompt (trimmed data "subject") (trimmed data "level")
         (trimmed data "learning_style") (topics_of data) (duration_of data)
       = Ok prompt
       /\ r = envelope (lesson_for (model_of data) prompt)
                (trimmed data "subject") (trimmed data "level")
                (trimmed data "learning_style") (topics_of data)
                (duration_of data)
       /\ t' = t ++ [ CallGenerateLesson (trimmed data "subject")
                        (trimmed data "level") (trimmed data "learning_style")
                        (topics_of data) (duration_of data) (model_of data);
                      CallChat (if truthy (model_of data) then model_of data
                                else JStr DEFAULT_MODEL) prompt ].
Proof.
  rewrite generate_refines. intros H S.
  destruct (verdict_of data) as [c|e|] eqn:V.
  - injection H as <- _. destruct (rejection_is_400 c data) as [S' _].
    rewrite S' in S. discriminate S.
  - injection H as <- _. discriminate S.
  - apply verdict_accepted_inv in V. destruct V as (Ht & Hf & _).
    split; [exact Ht|]. split; [exact Hf|].
    unfold answer in H.
    destruct (build_prompt (trimmed data "subject") (trimmed data "level")
                (trimmed data "learning_style") (topics_of data)
                (duration_of data)) as [prompt|e] eqn:E;
      cbn [fst snd] in H; injection H as <- <-; [|discriminate S].
    split; [|exists prompt; repeat split].
    destruct (all_strings (topics_of data)) eqn:A; [reflexivity|].
    destruct (build_prompt_non_string (trimmed data "subject")
                (trimmed data "level") (trimmed data "learning_style")
                _ (duration_of data) A) as [e [E' _]].
    congruence.
Qed.

Lemma status_200_printable data t r t' :
  generate (Ok data) t = (Return r, t') -> status r = 200 ->
  printable data = true.
Proof.
  rewrite generate_refines. intros H S.
  destruct (verdict_of data) as [c|e|] eqn:V.
  - injection H as <- _. destruct (rejection_is_400 c data) as [S' _].
    rewrite S' in S. discriminate S.
  - injection H as <- _. discriminate S.
  - now apply verdict_accepted_inv in V.
Qed.

Lemma duration_of_in_range data d :
  passes DurationValid data = true -> duration_of data = Some d ->
  in_range d = true.
Proof.
  unfold passes, duration_of.
  destruct (field data "duration") as [v|]; [|discriminate].
  destruct v; try discriminate;
    (destruct (py_int _) as [d'|]; [|discriminate]; congruence).
Qed.

Lemma strip_trimmed data key : strip (trimmed data key) = trimmed data key.
Proof.
  unfold trimmed. destruct (field data key) as [[]|]; try reflexivity.
  apply strip_idempotent.
Qed.

Lemma typed_of_fields data :
  (exists items, data = JDict items) ->
  str_or_absent (field data "subject") = true ->
  str_or_absent (field data "level") = true ->
  str_or_absent (field data "learning_style") = true ->
  text_fields_typed data = true.
Proof.
  intros [items ->] H1 H2 H3. unfold text_fields_typed.
  now rewrite H1, H2, H3.
Qed.

(** X5.  For a request that passes the five earlier checks: a duration
    that is missing or null is never rejected, and is echoed as null in
    the 200 response the request gets when its topics are strings and
    its text fields can be logged; a boolean is read
    as 1 or 0 and rejected as out of range; NaN, an array, an object or a
    string that [int()] cannot read is rejected as not a number; and
    whatever [int()] reads as a number below 15 or above 180 is rejected
    as out of range.  Each rejection is a 400 with its own message and
    makes no call. *)
Theorem duration_check_by_kind data t :
  text_fields_typed data = true ->
  (forall c, c <> DurationValid -> passes c data = true) ->
  let out_of_range :=
    (Return (R := response) (A := response)
       (bad_request "La durée doit être entre 15 et 180 minutes"), t) in
  let not_a_number :=
    (Return (R := response) (A := response)
       (bad_request "La durée doit être un nombre valide"), t) in
  (field data "duration" = None \/ field data "duration" = Some JNull ->
   exists r t',
     generate (Ok data) t = (Return r, t')
     /\ status r <> 400
     /\ (printable data = true -> all_strings (topics_of data) = true ->
         status r = 200 /\ field (body r) "duration" = Some JNull))
  /\ (forall b, field data "duration" = Some (JBool b) ->
      generate (Ok data) t = out_of_range)
  /\ (forall v, field data "duration" = Some v ->
      v = JFloat FNan \/ (exists l, v = JList l) \/ (exists d, v = JDict d)
      \/ (exists s, v = JStr s /\ int_of_str s = None) ->
      generate (Ok data) t = not_a_number)
  /\ (forall v d, field data "duration" = Some v -> py_int v = Ok d ->
      d < 15 \/ 180 < d ->
      generate (Ok data) t = out_of_range).
Proof.
  intros Ht H5 out_of_range not_a_number.
  pose proof (five_checks data H5) as Hf.
  assert (forall v d, field data "duration" = Some v -> py_int v = Ok d ->
          d < 15 \/ 180 < d -> generate (Ok data) t = out_of_range) as Out.
  { intros v d Hv Hi Hd.
    assert (passes DurationValid data = false) as Hp.
    { unfold passes. rewrite Hv.
      destruct v; try (cbn in Hi; discriminate Hi); rewrite Hi;
        (destruct (in_range d) eqn:R; [apply in_range_bounds in R; lia
                                      |reflexivity]). }
    rewrite Hp in Hf.
    assert (duration_finite data = true) as Hfin.
    { unfold duration_finite. rewrite Hv.
      destruct v as [| | |[| |]| | |]; try reflexivity.
      cbn in Hi. discriminate Hi. }
    rewrite generate_refines,
      (verdict_rejected _ _ Ht (fun _ => Hfin) Hf).
    unfold rejection, duration_of. rewrite Hv.
    destruct v; try (cbn in Hi; discriminate Hi); now rewrite Hi. }
  split; [|repeat split].
  - intros H.
    assert (first_failing data = None) as Hn
      by (unfold passes in Hf; destruct H as [H|H]; rewrite H in Hf;
          exact Hf).
    assert (duration_of data = None) as Hd
      by (unfold duration_of; destruct H as [H|H]; now rewrite H).
    destruct (passed_status data t Ht Hn) as (r & t' & Hg & S).
    exists r, t'. split; [exact Hg|]. split.
    + destruct S as [-> | ->]; discriminate.
    + intros Hp A.
      destruct (accepted_envelope data t Ht Hn Hp A) as (p & t2 & _ & Hg2).
      rewrite Hg in Hg2. injection Hg2 as -> _. rewrite Hd.
      split; [reflexivity | vm_compute; reflexivity].
  - intros b Hv. apply (Out (JBool b) (if b then 1 else 0) Hv eq_refl).
    destruct b; lia.
  - intros v Hv Hk.
    assert (exists e, py_int v = Err e /\ type_or_value_error (exc_cls e) = true
                      /\ v <> JNull) as (e & Hi & He & Hn).
    { destruct Hk as [->|[[l ->]|[[d ->]|[s [-> Hs]]]]]; cbn;
        try rewrite Hs; eexists; repeat split; discriminate. }
    assert (passes DurationValid data = false) as Hp.
    { unfold passes. rewrite Hv. destruct v; try congruence; now rewrite Hi. }
    rewrite Hp in Hf.
    assert (duration_finite data = true) as Hfin.
    { unfold duration_finite. rewrite Hv.
      destruct v as [| | |[| |]| | |]; try reflexivity.
      cbn in Hi. injection Hi as <-. discriminate He. }
    rewrite generate_refines,
      (verdict_rejected _ _ Ht (fun _ => Hfin) Hf).
    unfold rejection, duration_of. rewrite Hv.
    destruct v; try congruence; now rewrite Hi.
  - exact Out.
Qed.

(** X6.  For a request that passes the checks, whose text fields can
    be logged and whose topics are strings, one chat request is made, with the prompt rendered from the trimmed fields and
    with the request's [model] when that value is truthy; when [model] is
    missing, null, empty, zero or false the request goes to the default
    model, the one [GET /api/models] announces as [default].  The
    response does not say which model was used. *)
Theorem model_selection data t :
  text_fields_typed data = true -> first_failing data = None ->
  printable data = true ->
  all_strings (topics_of data) = true ->
  let chosen := match field data "model" with
                | Some m => if truthy m then m else JStr DEFAULT_MODEL
                | None => JStr DEFAULT_MODEL
                end in
  exists r t' prompt,
    generate (Ok data) t = (Return r, t')
    /\ build_prompt (trimmed data "subject") (trimmed data "level")
         (trimmed data "learning_style") (topics_of data) (duration_of data)
       = Ok prompt
    /\ chats t' = chats t ++ [(chosen, prompt)]
    /\ field (body r) "model" = None
    /\ field (body get_models) "default" = Some (JStr DEFAULT_MODEL).
Proof.
  intros Ht Hf Hpr A chosen.
  destruct (accepted_envelope data t Ht Hf Hpr A) as (prompt & t' & Hp & Hg).
  destruct (status_200_inv data t _ t' Hg eq_refl)
    as (_ & _ & _ & prompt' & Hp' & _ & Ht').
  assert (prompt' = prompt) as -> by congruence.
  eexists. exists t', prompt. split; [exact Hg|]. split; [exact Hp|]. split.
  - rewrite Ht'. unfold chats. rewrite flat_map_app. cbn [flat_map app].
    f_equal. f_equal. f_equal. unfold chosen, model_of.
    destruct (field data "model"); [reflexivity|].
    vm_compute. reflexivity.
  - split; [|vm_compute; reflexivity].
    apply envelope_fields.
Qed.

(** X9.  In a 200 response the echoed [subject], [level] and
    [learning_style] are non-empty texts that [strip] leaves unchanged:
    neither their first nor their last code point is whitespace. *)
Theorem echoed_text_is_stripped data t r t' key :
  generate (Ok data) t = (Return r, t') -> status r = 200 ->
  In key ["subject"; "level"; "learning_style"]%string ->
  exists s,
    field (body r) key = Some (JStr s)
    /\ s <> [] /\ strip s = s
    /\ (forall c rest, s = c :: rest -> is_space c = false)
    /\ (forall c rest, rev s = c :: rest -> is_space c = false).
Proof.
  intros Hg S Hk.
  destruct (status_200_inv data t r t' Hg S)
    as (_ & Hf & _ & prompt & _ & -> & _).
  rewrite first_failing_none in Hf.
  destruct (envelope_fields (lesson_for (model_of data) prompt)
              (trimmed data "subject") (trimmed data "level")
              (trimmed data "learning_style") (topics_of data)
              (duration_of data)) as (_ & _ & F1 & F2 & F3 & _).
  assert (forall s, strip s = s ->
          (forall c rest, s = c :: rest -> is_space c = false)
          /\ (forall c rest, rev s = c :: rest -> is_space c = false)) as Ends.
  { intros s Hs. destruct (strip_fixed_ends s Hs) as [L R]. split.
    - intros c rest ->. now apply lstrip_fixed_head with (r := rest).
    - intros c rest E. rewrite E in R.
      now apply lstrip_fixed_head with (r := rest). }
  cbn [In] in Hk. destruct Hk as [<-|[<-|[<-|[]]]].
  - exists (trimmed data "subject"). split; [exact F1|].
    pose proof (Hf SubjectGiven) as P. cbn [passes] in P.
    split; [intros E; rewrite E in P; discriminate P|].
    split; [apply strip_trimmed|]. apply Ends, strip_trimmed.
  - exists (trimmed data "level"). split; [exact F2|].
    pose proof (Hf LevelGiven) as P. cbn [passes] in P.
    split; [intros E; rewrite E in P; discriminate P|].
    split; [apply strip_trimmed|]. apply Ends, strip_trimmed.
  - exists (trimmed data "learning_style"). split; [exact F3|].
    pose proof (Hf StyleGiven) as P. cbn [passes] in P.
    split; [intros E; rewrite E in P; discriminate P|].
    split; [apply strip_trimmed|]. apply Ends, strip_trimmed.
Qed.

End Accepted.

(** ** What the handler reads of a request *)

Section Reading.
Context {env : Environment}.

(** Two non-empty objects that agree on the six keys are treated alike. *)
Lemma fields_determine items items' t :
  items <> [] -> items' <> [] ->
  (forall k, In k request_keys ->
     field (JDict items') k = field (JDict items) k) ->
  generate (Ok (JDict items')) t = generate (Ok (JDict items)) t.
Proof.
  intros Hn Hn' H.
  assert (field (JDict items') "subject" = field (JDict items) "subject")
    as H1 by (apply H; cbn; tauto).
  assert (field (JDict items') "level" = field (JDict items) "level")
    as H2 by (apply H; cbn; tauto).
  assert (field (JDict items') "learning_style"
          = field (JDict items) "learning_style")
    as H3 by (apply H; cbn; tauto).
  assert (field (JDict items') "topics" = field (JDict items) "topics")
    as H4 by (apply H; cbn; tauto).
  assert (field (JDict items') "duration" = field (JDict items) "duration")
    as H5 by (apply H; cbn; tauto).
  assert (field (JDict items') "model" = field (JDict items) "model")
    as H6 by (apply H; cbn; tauto).
  rewrite !generate_refines.
  assert (truthy (JDict items') = truthy (JDict items)) as Tr.
  { destruct items, items'; try contradiction; reflexivity. }
  unfold verdict_of, first_error, first_failing, strip_error, duration_error,
    log_error, answer, rejection, passes, trimmed, topics_of, duration_of,
    model_of, order.
  rewrite Tr, H1, H2, H3, H4, H5, H6. reflexivity.
Qed.

Lemma with_field_other key key' v data :
  pystr_eqb (u8 key') (u8 key) = false ->
  field (with_field key v data) key' = field data key'.
Proof.
  intros H. destruct data; try reflexivity.
  unfold with_field, field. now apply assoc_get_set_other.
Qed.

(** X7.  A key the handler does not read changes nothing: adding it to a
    non-empty body, or changing its value, leaves the response and the
    calls the same. *)
Theorem unread_fields_are_ignored data key v t :
  truthy data = true ->
  (forall k, In k request_keys -> pystr_eqb (u8 k) (u8 key) = false) ->
  generate (Ok (with_field key v data)) t = generate (Ok data) t.
Proof.
  intros Tr Hk. destruct data as [| | | | | |items]; try reflexivity.
  unfold with_field. apply fields_determine.
  - destruct items; [discriminate Tr|discriminate].
  - destruct items as [|[k x] r]; [discriminate Tr|].
    cbn [assoc_set]. destruct (pystr_eqb _ _); discriminate.
  - intros k Hin.
    apply (with_field_other key k v (JDict items) (Hk k Hin)).
Qed.

(** X8.  A 200 response sent back as the body of a new request is
    accepted, and the new response echoes the same subject, level,
    learning style, topics and duration. *)
Theorem success_response_resubmitted data t r t' :
  generate (Ok data) t = (Return r, t') -> status r = 200 ->
  exists r2 t2,
    generate (Ok (body r)) t' = (Return r2, t2)
    /\ status r2 = 200
    /\ field (body r2) "subject" = field (body r) "subject"
    /\ field (body r2) "level" = field (body r) "level"
    /\ field (body r2) "learning_style" = field (body r) "learning_style"
    /\ field (body r2) "topics" = field (body r) "topics"
    /\ field (body r2) "duration" = field (body r) "duration".
Proof.
  intros Hg S.
  pose proof (status_200_printable data t r t' Hg S) as Hpr.
  destruct (status_200_inv data t r t' Hg S)
    as (_ & Hf & A & prompt & _ & -> & _).
  rewrite first_failing_none in Hf.
  set (lesson := lesson_for (model_of data) prompt).
  set (b := body (envelope lesson (trimmed data "subject")
                    (trimmed data "level") (trimmed data "learning_style")
                    (topics_of data) (duration_of data))).
  destruct (envelope_fields lesson (trimmed data "subject")
              (trimmed data "level") (trimmed data "learning_style")
              (topics_of data) (duration_of data))
    as (_ & _ & F1 & F2 & F3 & F4 & F5 & _).
  fold b in F1, F2, F3, F4, F5.
  assert (trimmed b "subject" = trimmed data "subject") as T1
    by (unfold trimmed at 1; rewrite F1; apply strip_trimmed).
  assert (trimmed b "level" = trimmed data "level") as T2
    by (unfold trimmed at 1; rewrite F2; apply strip_trimmed).
  assert (trimmed b "learning_style" = trimmed data "learning_style") as T3
    by (unfold trimmed at 1; rewrite F3; apply strip_trimmed).
  assert (topics_of b = topics_of data) as T4
    by (unfold topics_of at 1; now rewrite F4).
  assert (duration_of b = duration_of data) as T5.
  { unfold duration_of at 1. rewrite F5.
    destruct (duration_of data); reflexivity. }
  assert (text_fields_typed b = true) as Ht.
  { apply typed_of_fields; [eexists; reflexivity| | |].
    - now rewrite F1. - now rewrite F2. - now rewrite F3. }
  assert (first_failing b = None) as Hf'.
  { apply first_failing_none. intros c. specialize (Hf c).
    destruct c; cbn [passes] in *.
    - reflexivity.
    - now rewrite T1. - now rewrite T2. - now rewrite T3. - now rewrite T4.
    - rewrite F5. destruct (duration_of data) as [d|] eqn:D; [|reflexivity].
      cbn. apply (duration_of_in_range data d Hf D). }
  assert (printable b = true) as Hpr'
    by (unfold printable; rewrite T1, T2, T3; exact Hpr).
  destruct (accepted_envelope b t' Ht Hf' Hpr' ltac:(now rewrite T4))
    as (prompt2 & t2 & _ & Hg2).
  rewrite T1, T2, T3, T4, T5 in Hg2.
  eexists. exists t2. split; [exact Hg2|]. split; [reflexivity|].
  destruct (envelope_fields (lesson_for (model_of b) prompt2)
              (trimmed data "subject") (trimmed data "level")
              (trimmed data "learning_style") (topics_of data)
              (duration_of data))
    as (_ & _ & G1 & G2 & G3 & G4 & G5 & _).
  rewrite G1, G2, G3, G4, G5. now rewrite F1, F2, F3, F4, F5.
Qed.

(** X12.  The handler with the stand-in generator of the failed import
    answers every request that passes validation, and whose text fields
    can be logged, with status 200 and the
    stand-in's fixed text as the lesson, makes no call at all, and does
    so even when a topic is not a string; a request that the normal
    handler answers without calling the pipeline gets the same answer;
    and with the pipeline's generator the parametrised handler is the
    normal one. *)
Theorem degraded_deployment data t :
  (text_fields_typed data = true -> first_failing data = None ->
   printable data = true ->
   generate_without_pipeline (Ok data) t
   = (Return
        (envelope
           (JStr (u8 "Erreur: Le fichier tutor_generator.py n'a pas été trouvé. Assurez-vous qu'il est dans le même dossier que app.py"))
           (trimmed data "subject") (trimmed data "level")
           (trimmed data "learning_style") (topics_of data)
           (duration_of data)), t))
  /\ (forall r, generate (Ok data) t = (Return r, t) ->
      generate_without_pipeline (Ok data) t = (Return r, t))
  /\ generate_with generate_lesson DEFAULT_MODEL (Ok data) t
     = generate (Ok data) t.
Proof.
  unfold generate_without_pipeline. split; [|split; [|reflexivity]].
  - intros Ht Hf Hp.
    rewrite generate_with_refines, (verdict_accepted _ Ht Hf Hp).
    reflexivity.
  - intros r. rewrite generate_with_refines, generate_refines.
    destruct (verdict_of data); try (intros H; exact H).
    intros H. exfalso. injection H as _ H. unfold answer in H.
    destruct (build_prompt _ _ _ _ _); cbn [snd] in H;
      apply (f_equal (@List.length event)) in H;
      rewrite length_app in H; cbn [List.length] in H; lia.
Qed.

End Reading.

(** ** The template and the generation call *)

Section Template.
Context {env : Environment}.

Lemma joined_split_topic sep l1 a b l2 :
  joined sep (l1 ++ (a ++ sep ++ b) :: l2) = joined sep (l1 ++ a :: b :: l2).
Proof.
  destruct l1 as [|t r]; cbn [app joined].
  - cbn [map List.concat]. now rewrite <- !app_assoc.
  - f_equal. rewrite !map_app, !concat_app. f_equal.
    cbn [map List.concat]. now rewrite <- !app_assoc.
Qed.

Lemma join_from_first_bad sep strs x rest : forall i,
  (forall s, x <> JStr s) ->
  join_from i sep (map JStr strs ++ x :: rest)
  = Err (mkExc TypeError
           (u8 "sequence item " ++ str_of_int (Z.of_nat (i + List.length strs))
              ++ u8 ": expected str instance, " ++ type_name x
              ++ u8 " found")).
Proof.
  induction strs as [|s r IH]; intros i Hx.
  - cbn [map app List.length]. rewrite Nat.add_0_r.
    destruct x; try reflexivity. now contradiction (Hx s).
  - cbn [map app join_from List.length].
    rewrite (IH (S i) Hx), Nat.add_succ_r.
    destruct (map JStr r ++ x :: rest) eqn:E; [|reflexivity].
    symmetry in E. now apply app_cons_not_nil in E.
Qed.

(** X10.  The template does not delimit the level from the subject: a
    level [a] with subject [b en c] and a level [a en b] with subject [c]
    render the same prompt. *)
Theorem level_and_subject_are_not_delimited a b c learning_style topics
    duration :
  build_prompt (b ++ u8 " en " ++ c) a learning_style topics duration
  = build_prompt c (a ++ u8 " en " ++ b) learning_style topics duration.
Proof.
  unfold build_prompt. destruct (topics_text topics); [|reflexivity].
  f_equal. unfold render. now rewrite <- !app_assoc.
Qed.

(** X11.  The prompt does not tell one topic that contains [", "] from
    two topics: a list with the topic [a, b] and the same list with the
    two topics [a] and [b] in its place render the same prompt. *)
Theorem topic_with_separator_reads_as_two subject level learning_style
    duration (l1 l2 : list pystr) (a b : pystr) :
  build_prompt subject level learning_style
    (map JStr (l1 ++ (a ++ u8 ", " ++ b) :: l2)) duration
  = build_prompt subject level learning_style
      (map JStr (l1 ++ a :: b :: l2)) duration.
Proof.
  unfold build_prompt, topics_text, join.
  assert (forall l : list pystr, l <> [] ->
          match map JStr l with
          | [] => Ok (u8 "général")
          | _ :: _ => join_from 0 (u8 ", ") (map JStr l)
          end = Ok (joined (u8 ", ") l)) as H.
  { intros l Hl. destruct l; [contradiction|]. apply join_texts. }
  rewrite !H by (destruct l1; discriminate).
  now rewrite joined_split_topic.
Qed.

(** X13.  When a request that passes the checks, and whose text fields
    can be logged, has a topic that is not a string, the 500 response
    names the position of the first such topic and its
    type, as the join reports them; [generate_lesson] was entered but no
    chat request was made. *)
Theorem non_string_topic_is_named data t strs x rest :
  text_fields_typed data = true -> first_failing data = None ->
  printable data = true ->
  topics_of data = map JStr strs ++ x :: rest ->
  (forall s, x <> JStr s) ->
  generate (Ok data) t
  = (Return
       (server_error
          (mkExc TypeError
             (u8 "sequence item "
                ++ str_of_int (Z.of_nat (List.length strs))
                ++ u8 ": expected str instance, " ++ type_name x
                ++ u8 " found"))),
     t ++ [ CallGenerateLesson (trimmed data "subject") (trimmed data "level")
              (trimmed data "learning_style") (topics_of data)
              (duration_of data) (model_of data) ]).
Proof.
  intros Ht Hf Hpr Htp Hx.
  rewrite generate_refines, (verdict_accepted _ Ht Hf Hpr). unfold answer.
  assert (build_prompt (trimmed data "subject") (trimmed data "level")
            (trimmed data "learning_style") (topics_of data)
            (duration_of data)
          = Err (mkExc TypeError
                   (u8 "sequence item "
                      ++ str_of_int (Z.of_nat (List.length strs))
                      ++ u8 ": expected str instance, " ++ type_name x
                      ++ u8 " found"))) as ->.
  { unfold build_prompt, topics_text, join. rewrite Htp.
    destruct (map JStr strs ++ x :: rest) eqn:E.
    - symmetry in E; now apply app_cons_not_nil in E.
    - rewrite <- E, (join_from_first_bad _ strs x rest 0 Hx). reflexivity. }
  reflexivity.
Qed.

(** X14.  Called directly, [generate_lesson] returns whenever its topics
    are all strings: it makes one chat request, to the given model or to
    the default one when the given model is falsy, and returns the
    content unchanged or, if the request raised, the error text.  When a
    topic is not a string it raises the [TypeError] of the join before
    any chat request. *)
Theorem generate_lesson_outcomes subject level learning_style topics duration
    model_name t :
  let entered :=
    CallGenerateLesson subject level learning_style topics duration
      model_name in
  let chosen := if truthy model_name then model_name else JStr DEFAULT_MODEL in
  (all_strings topics = true ->
   exists prompt,
     build_prompt subject level learning_style topics duration = Ok prompt
     /\ generate_lesson subject level learning_style topics duration
          model_name t
        = (Return match ollama_chat chosen prompt with
                  | Ok content => content
                  | Err e => JStr (u8 "Erreur API: " ++ exc_str e)
                  end,
           t ++ [entered; CallChat chosen prompt]))
  /\ (all_strings topics = false ->
      exists e,
        exc_cls e = TypeError
        /\ generate_lesson subject level learning_style topics duration
             model_name t
           = (Raise e, t ++ [entered])).
Proof.
  intros entered chosen. split; intros A.
  - destruct (build_prompt_strings subject level learning_style topics
                duration A) as [prompt Hp].
    exists prompt. split; [exact Hp|].
    unfold generate_lesson, try_except, bind, eval, emit, py_return.
    cbv zeta. rewrite Hp. fold chosen.
    destruct (ollama_chat chosen prompt); rewrite <- app_assoc; reflexivity.
  - destruct (build_prompt_non_string subject level learning_style topics
                duration A) as [e [Hp C]].
    exists e. split; [exact C|].
    unfold generate_lesson, try_except, bind, eval, emit, py_return.
    cbv zeta. now rewrite Hp.
Qed.

(** X15.  [build_prompt] drops a duration that is zero or negative as if
    none had been given; for a request the handler answers 200 with a
    duration, the prompt sent always carries the sentence announcing
    [int(duration)] minutes, since that number is at least 15. *)
Theorem duration_sentence subject level learning_style topics :
  (forall d, d <= 0 ->
     build_prompt subject level learning_style topics (Some d)
     = build_prompt subject level learning_style topics None)
  /\ (forall data t d,
        text_fields_typed data = true -> first_failing data = None ->
        printable data = true ->
        all_strings (topics_of data) = true -> duration_of data = Some d ->
        exists r t' txt,
          generate (Ok data) t = (Return r, t')
          /\ topics_text (topics_of data) = Ok txt
          /\ prompts_sent t'
             = prompts_sent t
               ++ [ render (trimmed data "subject") (trimmed data "level")
                      (trimmed data "learning_style") txt
                      (nl ++ u8 "Durée de la session: " ++ str_of_int d
                          ++ u8 " minutes.")
                      (style_instruction (trimmed data "learning_style")) ]).
Proof.
  split.
  - intros d Hd. unfold build_prompt, duration_text.
    replace (d >? 0) with false
      by (symmetry; rewrite Z.gtb_ltb; apply Z.ltb_ge; exact Hd).
    now rewrite andb_false_r.
  - intros data t d Ht Hf Hpr A D.
    destruct (accepted_envelope data t Ht Hf Hpr A)
      as (prompt & t' & Hp & Hg).
    destruct (status_200_inv data t _ t' Hg eq_refl)
      as (_ & _ & _ & prompt' & Hp' & _ & Ht').
    assert (prompt' = prompt) as -> by congruence.
    unfold build_prompt in Hp.
    destruct (topics_text (topics_of data)) as [txt|] eqn:T;
      [|discriminate Hp].
    eexists. exists t', txt. split; [exact Hg|]. split; [reflexivity|].
    rewrite Ht'. unfold prompts_sent. rewrite flat_map_app.
    cbn [flat_map app]. f_equal. f_equal.
    injection Hp as <-. f_equal. rewrite D. unfold duration_text.
    assert (in_range d = true) as R.
    { apply (duration_of_in_range data d); [|exact D].
      rewrite first_failing_none in Hf. apply Hf. }
    apply in_range_bounds in R.
    replace (d =? 0) with false by (symmetry; apply Z.eqb_neq; lia).
    replace (d >? 0) with true
      by (symmetry; rewrite Z.gtb_ltb; apply Z.ltb_lt; lia).
    reflexivity.
Qed.

End Template.

(** * The further properties on concrete requests *)

Lemma duration_check_by_kind_witness :
  let data := with_field "duration" (JBool true) example_request in
  text_fields_typed data = true
  /\ (forall c, c <> DurationValid -> passes (env := offline) c data = true)
  /\ generate (env := offline) (Ok data) []
     = (Return (bad_request "La durée doit être entre 15 et 180 minutes"), []).
Proof.
  intros data.
  assert (forall c, c <> DurationValid ->
          passes (env := offline) c data = true) as H5.
  { intros [] H; solve [vm_compute; reflexivity | contradiction]. }
  split; [vm_compute; reflexivity|]. split; [exact H5|].
  destruct (duration_check_by_kind (env := offline) data []
              ltac:(vm_compute; reflexivity) H5) as (_ & B & _).
  exact (B true ltac:(vm_compute; reflexivity)).
Defined.

Lemma model_selection_witness :
  let data := with_field "model" (JStr []) example_request in
  text_fields_typed data = true
  /\ first_failing (env := offline) data = None
  /\ all_strings (topics_of data) = true
  /\ exists r t',
       generate (env := offline) (Ok data) [] = (Return r, t')
       /\ chats t' = [(JStr DEFAULT_MODEL, example_prompt)].
Proof.
  intros data.
  split; [vm_compute; reflexivity|]. split; [vm_compute; reflexivity|].
  split; [vm_compute; reflexivity|].
  destruct (model_selection (env := offline) data []
              ltac:(vm_compute; reflexivity) ltac:(vm_compute; reflexivity)
              ltac:(vm_compute; reflexivity) ltac:(vm_compute; reflexivity))
    as (r & t' & prompt & Hg & Hp & Hc & _).
  exists r, t'. split; [exact Hg|]. rewrite Hc.
  assert (Ok prompt = Ok example_prompt) as E
    by (rewrite <- Hp; vm_compute; reflexivity).
  injection E as ->. vm_compute. reflexivity.
Defined.

Lemma unread_fields_are_ignored_witness :
  truthy example_request = true
  /\ (forall k, In k request_keys -> pystr_eqb (u8 k) (u8 "note") = false)
  /\ generate (env := offline)
       (Ok (with_field "note" (JStr (u8 "urgent")) example_request)) []
     = generate (env := offline) (Ok example_request) [].
Proof.
  assert (forall k, In k request_keys ->
          pystr_eqb (u8 k) (u8 "note") = false) as H.
  { intros k Hk. cbn [In request_keys] in Hk.
    destruct Hk as [<-|[<-|[<-|[<-|[<-|[<-|[]]]]]]]; vm_compute; reflexivity. }
  split; [vm_compute; reflexivity|]. split; [exact H|].
  exact (unread_fields_are_ignored (env := offline) example_request "note"
           (JStr (u8 "urgent")) [] ltac:(vm_compute; reflexivity) H).
Defined.

Lemma success_response_resubmitted_witness :
  exists r t',
    generate (env := offline) (Ok padded_subject) [] = (Return r, t')
    /\ status r = 200
    /\ exists r2 t2,
         generate (env := offline) (Ok (body r)) t' = (Return r2, t2)
         /\ status r2 = 200
         /\ field (body r2) "subject" = Some (JStr (u8 "Mathématiques")).
Proof.
  destruct (accepted_envelope (env := offline) padded_subject []
              ltac:(vm_compute; reflexivity) ltac:(vm_compute; reflexivity)
              ltac:(vm_compute; reflexivity) ltac:(vm_compute; reflexivity))
    as (prompt & t' & _ & Hg).
  eexists. exists t'. split; [exact Hg|]. split; [reflexivity|].
  destruct (success_response_resubmitted (env := offline) padded_subject []
              _ t' Hg eq_refl) as (r2 & t2 & Hg2 & S2 & F & _).
  exists r2, t2. split; [exact Hg2|]. split; [exact S2|].
  rewrite F. vm_compute. reflexivity.
Defined.

Lemma echoed_text_is_stripped_witness :
  exists r t',
    generate (env := offline) (Ok padded_subject) [] = (Return r, t')
    /\ status r = 200
    /\ exists s, field (body r) "subject" = Some (JStr s)
                 /\ s <> [] /\ strip s = s.
Proof.
  destruct (accepted_envelope (env := offline) padded_subject []
              ltac:(vm_compute; reflexivity) ltac:(vm_compute; reflexivity)
              ltac:(vm_compute; reflexivity) ltac:(vm_compute; reflexivity))
    as (prompt & t' & _ & Hg).
  eexists. exists t'. split; [exact Hg|]. split; [reflexivity|].
  destruct (echoed_text_is_stripped (env := offline) padded_subject []
              _ t' "subject" Hg eq_refl (or_introl eq_refl))
    as (s & F & N & S & _).
  exists s. split; [exact F|]. split; [exact N|exact S].
Defined.

Lemma non_string_topic_is_named_witness :
  let data := history (JList [JStr (u8 "Rome"); JInt 1]) (JInt 60) in
  text_fields_typed data = true
  /\ first_failing (env := offline) data = None
  /\ topics_of data = map JStr [u8 "Rome"] ++ JInt 1 :: []
  /\ (forall s, JInt 1 <> JStr s)
  /\ status_of (generate (env := offline) (Ok data) []) = Some 500
  /\ exists calls,
       generate (env := offline) (Ok data) []
       = (Return
            (server_error
               (mkExc TypeError
                  (u8 "sequence item 1: expected str instance, int found"))),
          calls).
Proof.
  intros data.
  split; [vm_compute; reflexivity|]. split; [vm_compute; reflexivity|].
  split; [vm_compute; reflexivity|]. split; [discriminate|].
  pose proof (non_string_topic_is_named (env := offline) data []
                [u8 "Rome"] (JInt 1) []
                ltac:(vm_compute; reflexivity) ltac:(vm_compute; reflexivity)
                ltac:(vm_compute; reflexivity) ltac:(vm_compute; reflexivity)
                ltac:(discriminate)) as H.
  split; [rewrite H; reflexivity|].
  eexists. rewrite H. refine (f_equal2 pair _ eq_refl).
  vm_compute. reflexivity.
Defined.

(** ** Error statuses by cause *)

Section Failures.
Context {env : Environment}.




End Failures.

Lemma response_shapes_witness :
  let e := mkExc OtherError
             (u8 "415 Unsupported Media Type: Did not attempt to load JSON data because the request Content-Type was not 'application/json'.") in
  parse_error_printable (Err e) = true
  /\ exists r t',
       generate (env := offline) (Err e) [] = (Return r, t')
       /\ (status r = 400 \/ status r = 500 \/ status r = 200).
Proof.
  intros e. split; [vm_compute; reflexivity|].
  destruct (response_shapes (env := offline) (Err e) []
              ltac:(vm_compute; reflexivity))
    as (r & t' & Hg & [(S & _)|[(S & _)|(S & _)]]);
    exists r, t'; (split; [exact Hg|]); auto.
Defined.

